(** * inventory_system.py: a shallow embedding and its verified properties

    The module keeps one process-wide dictionary [stock_data] from item
    names to quantities, mutated by [add_item], [remove_item] and
    [load_data], read by [get_qty], [check_low_items], [print_data] and
    [save_data].

    Python is dynamically typed and every public function validates (or
    fails to validate) its arguments at run time, so arguments are values
    of a universal type [pyval].  Exceptions are explicit: a computation
    either returns or raises, and [try]/[except] is a combinator that
    checks the raised class against the handler's classes.  The dictionary,
    the file system, the calls of the logger and standard output form the
    [world] that every function threads through. *)

From Stdlib Require Import ZArith List String Ascii Bool Lia.
From Stdlib Require Import Floats.SpecFloat.
Import ListNotations.

Local Open Scope string_scope.
Local Open Scope Z_scope.

#[local] Set Warnings "-register-all".

(** ** Python values *)

(** Python's [float] is IEEE-754 binary64; [spec_float] with a 53-bit
    mantissa and [emax = 1024] is its executable description. *)
Definition prec : Z := 53.
Definition emax : Z := 1024.

Definition float_inf : spec_float := S754_infinity false.
Definition float_nan : spec_float := S754_nan.

(** The values the functions of the module can be called with, and the
    values [json.load] produces.  Integers are unbounded, as in Python;
    [VStr s] is the [str] whose UTF-8 encoding is [s], a lone surrogate
    being encoded like any other code point (what the error handler
    [surrogatepass] writes), so that [encodable] below tells the strings
    that can be written to a file or to the terminal; [VDict d] lists the
    items of a dictionary with string keys in order. *)
Inductive pyval : Type :=
| VNone
| VBool (b : bool)
| VInt (z : Z)
| VFloat (f : spec_float)
| VStr (s : string)
| VList (l : list pyval)
| VDict (d : list (string * pyval)).

(** The exception classes that occur in the module. *)
Inductive exn : Type :=
| TypeError
| ValueError
| OverflowError
| AttributeError
| KeyError
| OSError
| JSONDecodeError
| UnicodeDecodeError
| UnicodeEncodeError
| RecursionError.

Definition exn_eqb (a b : exn) : bool :=
  match a, b with
  | TypeError, TypeError | ValueError, ValueError
  | OverflowError, OverflowError | AttributeError, AttributeError
  | KeyError, KeyError | OSError, OSError
  | JSONDecodeError, JSONDecodeError
  | UnicodeDecodeError, UnicodeDecodeError
  | UnicodeEncodeError, UnicodeEncodeError
  | RecursionError, RecursionError => true
  | _, _ => false
  end.

(** [issubclass e c]: [json.JSONDecodeError], [UnicodeDecodeError] and
    [UnicodeEncodeError] derive from [ValueError]; [OverflowError] derives
    from [ArithmeticError], which no handler of the module names. *)
Definition issubclass (e c : exn) : bool :=
  exn_eqb e c ||
  match e, c with
  | JSONDecodeError, ValueError => true
  | UnicodeDecodeError, ValueError => true
  | UnicodeEncodeError, ValueError => true
  | _, _ => false
  end.

(** An [except (c1, c2, ...)] clause catches [e] when [e] is an instance of
    one of the classes. *)
Definition catches (classes : list exn) (e : exn) : bool :=
  existsb (issubclass e) classes.

(** The result of evaluating an expression: a value or a raised exception. *)
Inductive result (A : Type) : Type :=
| Ret (a : A)
| Raise (e : exn).
Arguments Ret {A} a.
Arguments Raise {A} e.

Definition returns {A} (r : result A) : bool :=
  match r with Ret _ => true | Raise _ => false end.

(** ** Numbers *)

(** What a dictionary slot of [stock_data] can hold: the sum of an [int] and
    an [int], [bool] or [float] is an [int] or a [float]. *)
Inductive num : Type :=
| NInt (z : Z)
| NFloat (f : spec_float).

Definition pyval_of_num (q : num) : pyval :=
  match q with NInt z => VInt z | NFloat f => VFloat f end.

(** [isinstance(item, str)]. *)
Definition isinstance_str (v : pyval) : bool :=
  match v with VStr _ => true | _ => false end.

(** [isinstance(qty, (int, float))]; [bool] is a subclass of [int]. *)
Definition isinstance_int_float (v : pyval) : bool :=
  match v with VInt _ | VBool _ | VFloat _ => true | _ => false end.

(** The number a value of class [int], [bool] or [float] stands for in
    arithmetic. *)
Definition as_num (v : pyval) : option num :=
  match v with
  | VInt z => Some (NInt z)
  | VBool b => Some (NInt (if b then 1 else 0))
  | VFloat f => Some (NFloat f)
  | _ => None
  end.

(** Conversion of an [int] operand to [float] in mixed arithmetic: rounded
    to nearest even, [OverflowError] when the integer is too large. *)
Definition float_of_int (z : Z) : result spec_float :=
  match binary_normalize prec emax z 0 false with
  | S754_infinity _ => Raise OverflowError
  | f => Ret f
  end.

(** [a + b]. *)
Definition py_add (a b : num) : result num :=
  match a, b with
  | NInt x, NInt y => Ret (NInt (x + y))
  | NInt x, NFloat g =>
      match float_of_int x with
      | Ret f => Ret (NFloat (SFadd prec emax f g))
      | Raise e => Raise e
      end
  | NFloat f, NInt y =>
      match float_of_int y with
      | Ret g => Ret (NFloat (SFadd prec emax f g))
      | Raise e => Raise e
      end
  | NFloat f, NFloat g => Ret (NFloat (SFadd prec emax f g))
  end.

(** [a - n] for an [int] [n]. *)
Definition py_sub (a : num) (n : Z) : result num :=
  match a with
  | NInt x => Ret (NInt (x - n))
  | NFloat f =>
      match float_of_int n with
      | Ret g => Ret (NFloat (SFsub prec emax f g))
      | Raise e => Raise e
      end
  end.

(** Comparison of a [float] with an [int] is exact in Python: the float
    [(-1)^s * m * 2^e] is compared with [z] as a rational; a NaN compares
    with nothing. *)
Definition float_compare_int (f : spec_float) (z : Z) : option comparison :=
  match f with
  | S754_nan => None
  | S754_infinity s => Some (if s then Lt else Gt)
  | S754_zero _ => Some (0 ?= z)
  | S754_finite s m e =>
      let v := cond_Zopp s (Zpos m) in
      Some (if 0 <=? e then v * 2 ^ e ?= z else v ?= z * 2 ^ (- e))
  end.

Definition num_compare_int (a : num) (z : Z) : option comparison :=
  match a with
  | NInt x => Some (x ?= z)
  | NFloat f => float_compare_int f z
  end.

(** [a < z], [a <= z], [a == z], [a > z] for an [int] [z]. *)
Definition num_ltb (a : num) (z : Z) : bool :=
  match num_compare_int a z with Some Lt => true | _ => false end.

Definition num_leb (a : num) (z : Z) : bool :=
  match num_compare_int a z with Some (Lt | Eq) => true | _ => false end.

Definition num_eqb (a : num) (z : Z) : bool :=
  match num_compare_int a z with Some Eq => true | _ => false end.


(** ** [int(...)] *)

(** [int(f)] for a float: truncation toward zero; [ValueError] on NaN,
    [OverflowError] on an infinity. *)
Definition int_of_float (f : spec_float) : result Z :=
  match f with
  | S754_nan => Raise ValueError
  | S754_infinity _ => Raise OverflowError
  | S754_zero _ => Ret 0
  | S754_finite s m e =>
      Ret (cond_Zopp s (if 0 <=? e then Zpos m * 2 ^ e
                        else Zpos m / 2 ^ (- e)))
  end.

(** The interpreter's limit on conversions between [int] and [str]
    ([sys.get_int_max_str_digits()], 4300 unless it is reconfigured): a
    conversion of more digits raises [ValueError]. *)
Definition max_str_digits : Z := 4300.

(** [str(z)] would have more than 4300 digits, that is [10^4300 <= |z|].
    An integer of fewer than 14284 bits is below [2^14284 < 10^4300], which
    spares the comparison with the large constant. *)
Definition too_long (z : Z) : bool :=
  if Z.log2 (Z.abs z) <? 14284 then false
  else 10 ^ max_str_digits <=? Z.abs z.

(** A string of ASCII characters only. *)
Definition is_ascii (s : string) : bool :=
  forallb (fun c => (nat_of_ascii c <? 128)%nat) (list_ascii_of_string s).

(** A string that the codec [utf-8] encodes: its bytes are well-formed
    UTF-8, which has no encoding of a surrogate ([ED A0] to [ED BF]), no
    overlong form and nothing above U+10FFFF. *)
Definition continuation (b : nat) : bool := ((128 <=? b) && (b <=? 191))%nat.

Definition second_of_three (a b : nat) : bool :=
  (if a =? 224 then (160 <=? b) && (b <=? 191)
   else if a =? 237 then (128 <=? b) && (b <=? 159)
   else continuation b)%nat.

Definition second_of_four (a b : nat) : bool :=
  (if a =? 240 then (144 <=? b) && (b <=? 191)
   else if a =? 244 then (128 <=? b) && (b <=? 143)
   else continuation b)%nat.

Fixpoint well_formed (l : list nat) : bool :=
  match l with
  | [] => true
  | a :: l1 =>
      if (a <? 128)%nat then well_formed l1
      else
        match l1 with
        | [] => false
        | b :: l2 =>
            if ((194 <=? a) && (a <=? 223))%nat
            then continuation b && well_formed l2
            else
              match l2 with
              | [] => false
              | c :: l3 =>
                  if ((224 <=? a) && (a <=? 239))%nat
                  then second_of_three a b && continuation c && well_formed l3
                  else
                    match l3 with
                    | [] => false
                    | d :: l4 =>
                        ((240 <=? a) && (a <=? 244))%nat &&
                        second_of_four a b && continuation c &&
                        continuation d && well_formed l4
                    end
              end
        end
  end.

Definition encodable (s : string) : bool :=
  well_formed (map nat_of_ascii (list_ascii_of_string s)).

(** [int(s)] for a string of ASCII characters, base ten: the whitespace of
    C ([\t \n \v \f \r] and the space) is stripped at both ends, an optional
    sign is followed by decimal digits, single underscores may separate
    digits, and more than 4300 digits raise [ValueError].  Python also
    reads the decimal digits and strips the whitespace of other scripts:
    for a string that is not ASCII this function says [ValueError] where
    Python may return a number, which is why the properties that use a
    rejection by [int] ask for a [plain] argument. *)
Definition is_space (c : ascii) : bool :=
  let n := nat_of_ascii c in
  ((9 <=? n) && (n <=? 13) || (n =? 32))%nat.

Definition digit_of (c : ascii) : option Z :=
  let n := nat_of_ascii c in
  if ((48 <=? n) && (n <=? 57))%nat then Some (Z.of_nat n - 48) else None.

Definition is_underscore (c : ascii) : bool := (nat_of_ascii c =? 95)%nat.

Fixpoint lstrip (l : list ascii) : list ascii :=
  match l with
  | c :: l' => if is_space c then lstrip l' else l
  | [] => []
  end.

Definition strip (l : list ascii) : list ascii :=
  rev (lstrip (rev (lstrip l))).

(** The digits after a first digit, [acc] being the value read so far. *)
Fixpoint more_digits (l : list ascii) (acc : Z) : option Z :=
  match l with
  | [] => Some acc
  | c :: l' =>
      match digit_of c with
      | Some d => more_digits l' (10 * acc + d)
      | None =>
          if is_underscore c then
            match l' with
            | c' :: l'' =>
                match digit_of c' with
                | Some d => more_digits l'' (10 * acc + d)
                | None => None
                end
            | [] => None
            end
          else None
      end
  end.

Definition digits (l : list ascii) : option Z :=
  match l with
  | c :: l' =>
      match digit_of c with
      | Some d => more_digits l' d
      | None => None
      end
  | [] => None
  end.

(** The number of digit characters, leading zeros included. *)
Definition count_digits (l : list ascii) : Z :=
  Z.of_nat (List.length (filter (fun c => match digit_of c with
                                           | Some _ => true
                                           | None => false
                                           end) l)).

Definition int_of_string (s : string) : result Z :=
  let l := strip (list_ascii_of_string s) in
  let parsed :=
    match l with
    | "+"%char :: l' => digits l'
    | "-"%char :: l' => option_map Z.opp (digits l')
    | _ => digits l
    end in
  match parsed with
  | Some z => if max_str_digits <? count_digits l then Raise ValueError
              else Ret z
  | None => Raise ValueError
  end.

(** [int(v)]. *)
Definition py_int (v : pyval) : result Z :=
  match v with
  | VInt z => Ret z
  | VBool b => Ret (if b then 1 else 0)
  | VFloat f => int_of_float f
  | VStr s => int_of_string s
  | VNone | VList _ | VDict _ => Raise TypeError
  end.

Definition int_of_num (q : num) : result Z := py_int (pyval_of_num q).


(** The value holds an integer that cannot be rendered or parsed: one of
    more than 4300 digits. *)
Fixpoint oversized (v : pyval) : bool :=
  match v with
  | VInt z => too_long z
  | VList l => existsb oversized l
  | VDict d =>
      (fix members (d : list (string * pyval)) : bool :=
         match d with
         | [] => false
         | (_, x) :: d' => oversized x || members d'
         end) d
  | _ => false
  end.

Definition oversized_num (q : num) : bool :=
  match q with NInt z => too_long z | NFloat _ => false end.

(** ** Dictionaries *)

(** A [dict] with string keys, as the list of its items in insertion
    order.  A Python dictionary has no key twice ([dict_wf]); the operations
    below keep it so. *)
Definition dict (A : Type) : Type := list (string * A).

Definition dict_wf {A} (d : dict A) : Prop := NoDup (map fst d).

(** [d.get(k)]. *)
Fixpoint dict_get {A} (k : string) (d : dict A) : option A :=
  match d with
  | [] => None
  | (k', v) :: d' => if String.eqb k k' then Some v else dict_get k d'
  end.

(** [k in d]. *)
Definition dict_mem {A} (k : string) (d : dict A) : bool :=
  match dict_get k d with Some _ => true | None => false end.

(** [d[k] = v]: an existing key keeps its place, a new key goes last. *)
Fixpoint dict_set {A} (k : string) (v : A) (d : dict A) : dict A :=
  match d with
  | [] => [(k, v)]
  | (k', v') :: d' =>
      if String.eqb k k' then (k', v) :: d' else (k', v') :: dict_set k v d'
  end.

(** [del d[k]]. *)
Fixpoint dict_del {A} (k : string) (d : dict A) : dict A :=
  match d with
  | [] => []
  | (k', v') :: d' =>
      if String.eqb k k' then d' else (k', v') :: dict_del k d'
  end.

(** ** The world *)

Inductive level : Type := INFO | WARNING | ERROR.

(** A call of the logger: its level and its format string.  The [logging]
    module deals with its own failures (a record whose arguments cannot be
    rendered is reported on standard error, not raised), so a call never
    raises; whether the record reaches the file [inventory.log] is not part
    of the world, and that file is not one of [files]. *)
Definition log_record : Type := (level * string)%type.

(** What a path of the file system leads to, as [load_data] can tell:
    a file that cannot be opened, bytes that are not UTF-8, text that is not
    JSON, a JSON document, a path on which [exists()] itself fails (a name
    too long, a directory that may not be searched), text nested too deeply
    for the parser.  A document is kept as the value [json.load] returns
    for it, or would return if no integer in it had more than 4300 digits:
    [json.dump] followed by [json.load] gives back the integers, floats
    (NaN and the infinities included, written [NaN] and [Infinity]) and
    string keys of a dictionary as they were, in order. *)
Inductive file : Type :=
| Unreadable
| Undecodable
| Malformed
| Document (v : pyval)
| Inaccessible
| TooDeep.

(** What [open("w")] does on a path: on a [Regular] file it succeeds and a
    later read returns what has been written; on a [Sink] it succeeds and
    what has been written cannot be read back (a file without read
    permission, a device such as /dev/null, the log file, to which records
    keep being appended); [Refused e] raises [e] ([OSError] for a missing
    directory or permission, [ValueError] for a name with a NUL). *)
Inductive access : Type :=
| Regular
| Sink
| Refused (e : exn).

(** A call of [print]. *)
Inductive printed : Type :=
| PText (s : string)
| PItem (item : string) (quantity : num)
| PValue (label : string) (v : pyval).

Record world : Type := mkWorld {
  stock_data : dict num;
  files : string -> option file;
  writable : string -> access;
  log : list log_record;
  stdout : list printed
}.

Definition set_stock (w : world) (d : dict num) : world :=
  mkWorld d (files w) (writable w) (log w) (stdout w).

Definition set_file (w : world) (p : string) (f : file) : world :=
  mkWorld (stock_data w)
          (fun q => if String.eqb q p then Some f else files w q)
          (writable w) (log w) (stdout w).

Definition add_log (w : world) (r : log_record) : world :=
  mkWorld (stock_data w) (files w) (writable w) (log w ++ [r]) (stdout w).

Definition add_stdout (w : world) (o : printed) : world :=
  mkWorld (stock_data w) (files w) (writable w) (log w) (stdout w ++ [o]).

(** ** Statements: state and exceptions *)

Definition M (A : Type) : Type := world -> result A * world.

Definition ret {A} (a : A) : M A := fun w => (Ret a, w).

Definition raise {A} (e : exn) : M A := fun w => (Raise e, w).

Definition bind {A B} (m : M A) (k : A -> M B) : M B :=
  fun w =>
    match m w with
    | (Ret a, w') => k a w'
    | (Raise e, w') => (Raise e, w')
    end.

Notation "x <- m ;; k" := (bind m (fun x => k))
  (at level 61, m at next level, right associativity).
Notation "m ;; k" := (bind m (fun _ => k))
  (at level 61, right associativity).

(** The value of an expression that may raise. *)
Definition eval {A} (r : result A) : M A := fun w => (r, w).

(** [try: body  except classes: handler]. *)
Definition try_except {A} (body : M A) (classes : list exn)
    (handler : exn -> M A) : M A :=
  fun w =>
    match body w with
    | (Raise e, w') =>
        if catches classes e then handler e w' else (Raise e, w')
    | r => r
    end.

(** [for x in l: body x]. *)
Fixpoint for_each {A} (l : list A) (body : A -> M unit) : M unit :=
  match l with
  | [] => ret tt
  | x :: l' => body x ;; for_each l' body
  end.

(** *** The logger, [print], the dictionary *)

Definition logger (lv : level) (fmt : string) : M unit :=
  fun w => (Ret tt, add_log w (lv, fmt)).

(** [print(...)]: rendering an integer of more than 4300 digits raises
    [ValueError]; an f-string is rendered before anything is written, the
    arguments of [print(label, v)] one after the other.  Standard output
    encodes in UTF-8, Python's choice in UTF-8 mode and on the usual
    locales, and raises [UnicodeEncodeError] on a name it cannot encode. *)
Definition print (o : printed) : M unit :=
  fun w =>
    match o with
    | PText _ => (Ret tt, add_stdout w o)
    | PItem item quantity =>
        if oversized_num quantity then (Raise ValueError, w)
        else if encodable item then (Ret tt, add_stdout w o)
        else (Raise UnicodeEncodeError, w)
    | PValue label v =>
        if oversized v then (Raise ValueError, add_stdout w (PText label))
        else (Ret tt, add_stdout w o)
    end.

(** [stock_data.items()]. *)
Definition stock_items : M (dict num) := fun w => (Ret (stock_data w), w).

(** [stock_data.get(item, default)]. *)
Definition stock_get (item : string) (default : num) : M num :=
  fun w =>
    (Ret match dict_get item (stock_data w) with
         | Some q => q
         | None => default
         end, w).

(** [item in stock_data]. *)
Definition stock_contains (item : string) : M bool :=
  fun w => (Ret (dict_mem item (stock_data w)), w).

(** [stock_data[item]]. *)
Definition stock_getitem (item : string) : M num :=
  fun w =>
    match dict_get item (stock_data w) with
    | Some q => (Ret q, w)
    | None => (Raise KeyError, w)
    end.

(** [stock_data[item] = q]. *)
Definition stock_setitem (item : string) (q : num) : M unit :=
  fun w => (Ret tt, set_stock w (dict_set item q (stock_data w))).

(** [del stock_data[item]]. *)
Definition stock_delitem (item : string) : M unit :=
  fun w =>
    if dict_mem item (stock_data w)
    then (Ret tt, set_stock w (dict_del item (stock_data w)))
    else (Raise KeyError, w).

(** [stock_data.clear()]. *)
Definition stock_clear : M unit := fun w => (Ret tt, set_stock w []).

(** [logs.append(line)]: the buffer belongs to the caller and its contents
    are not part of the world; of the values here only a list has the
    method, and the method is looked up before [line] is evaluated. *)
Definition list_append (logs : pyval) (line : M unit) : M unit :=
  match logs with
  | VList _ => line
  | _ => raise AttributeError
  end.

(** The f-string [f"{datetime.now()}: Added {qty} of {item}"]: rendering
    [qty] raises [ValueError] for an integer of more than 4300 digits. *)
Definition audit_line (qty : pyval) : M unit :=
  match qty with
  | VInt z => if too_long z then raise ValueError else ret tt
  | _ => ret tt
  end.

(** *** Files *)

(** [Path(file)]: a string is accepted, the other values here are not. *)
Definition Path (file : pyval) : M string :=
  match file with
  | VStr p => ret p
  | _ => raise TypeError
  end.

(** [path.exists()]. *)
Definition path_exists (p : string) : M bool :=
  fun w =>
    match files w p with
    | Some Inaccessible => (Raise OSError, w)
    | Some _ => (Ret true, w)
    | None => (Ret false, w)
    end.

(** [with path.open("r", encoding="utf-8") as file_obj: json.load(file_obj)];
    an integer literal of more than 4300 digits makes [json.load] raise
    [ValueError]. *)
Definition read_json (p : string) : M pyval :=
  fun w =>
    match files w p with
    | None | Some Unreadable | Some Inaccessible => (Raise OSError, w)
    | Some Undecodable => (Raise UnicodeDecodeError, w)
    | Some Malformed => (Raise JSONDecodeError, w)
    | Some TooDeep => (Raise RecursionError, w)
    | Some (Document v) =>
        if oversized v then (Raise ValueError, w) else (Ret v, w)
    end.

(** [path.open("w", encoding="utf-8")]: the file is created or emptied. *)
Definition open_write (p : string) : M unit :=
  fun w =>
    match writable w p with
    | Regular => (Ret tt, set_file w p Malformed)
    | Sink => (Ret tt, set_file w p Unreadable)
    | Refused e => (Raise e, w)
    end.

(** The JSON document of a dictionary of quantities. *)
Definition document_of (d : dict num) : pyval :=
  VDict (map (fun kv => (fst kv, pyval_of_num (snd kv))) d).

(** What stops [json.dump]: it writes the items in order, each name before
    its quantity; a name that UTF-8 cannot encode raises
    [UnicodeEncodeError] in the file object, an integer of more than 4300
    digits raises [ValueError] when it is rendered. *)
Fixpoint dump_error (d : dict num) : option exn :=
  match d with
  | [] => None
  | (k, q) :: d' =>
      if negb (encodable k) then Some UnicodeEncodeError
      else if oversized_num q then Some ValueError
      else dump_error d'
  end.

(** [json.dump(stock_data, file_obj, indent=4, ensure_ascii=False)]: when
    it is stopped the file stays cut short; otherwise a regular file holds
    the document. *)
Definition json_dump (p : string) : M unit :=
  fun w =>
    match dump_error (stock_data w) with
    | Some e => (Raise e, w)
    | None =>
        match writable w p with
        | Regular =>
            (Ret tt, set_file w p (Document (document_of (stock_data w))))
        | _ => (Ret tt, w)
        end
    end.

(** ** The functions of inventory_system.py *)

(** [add_item(item="default", qty=0, logs=None)]. *)
Definition add_item (item qty logs : pyval) : M unit :=
  let logs := match logs with VNone => VList [] | _ => logs end in
  if negb (isinstance_str item) || negb (isinstance_int_float qty) then
    logger WARNING "Invalid item or quantity type provided: item=%r qty=%r"
  else
    match item, as_num qty with
    | VStr name, Some q =>
        cur <- stock_get name (NInt 0) ;;
        sum <- eval (py_add cur q) ;;
        stock_setitem name sum ;;
        list_append logs (audit_line qty) ;;
        logger INFO "%s: Added %s of %s to inventory list successfully"
    | _, _ => raise TypeError (* excluded by the test above *)
    end.

(** [remove_item(item, qty)]. *)
Definition remove_item (item qty : pyval) : M unit :=
  match item with
  | VStr name =>
      converted <-
        try_except (qty_int <- eval (py_int qty) ;; ret (Some qty_int))
          [TypeError; ValueError]
          (fun _ =>
             logger WARNING "remove_item: qty must be an integer; got %r" ;;
             ret None) ;;
      match converted with
      | None => ret tt
      | Some qty_int =>
          present <- stock_contains name ;;
          if present then
            try_except
              (cur <- stock_getitem name ;;
               diff <- eval (py_sub cur qty_int) ;;
               stock_setitem name diff ;;
               now <- stock_getitem name ;;
               if num_leb now 0 then
                 stock_delitem name ;;
                 logger INFO "remove_item: %s removed from inventory."
               else ret tt)
              [KeyError]
              (fun _ => logger ERROR "Error removing %s: %s")
          else
            logger WARNING "Attempted to remove non-existent item: %s"
      end
  | _ => logger WARNING "remove_item: item must be a string; got %r"
  end.

(** [get_qty(item)]. *)
Definition get_qty (item : pyval) : M Z :=
  match item with
  | VStr name =>
      cur <- stock_get name (NInt 0) ;;
      eval (int_of_num cur)
  | _ =>
      logger WARNING "get_qty: item must be a string; got %r" ;;
      ret 0
  end.

(** The body of the loop of [load_data]:
    [try: stock_data[str(k)] = int(v)  except (TypeError, ValueError): ...];
    the keys of a JSON object are strings already. *)
Definition load_entry (kv : string * pyval) : M unit :=
  try_except
    (n <- eval (py_int (snd kv)) ;;
     stock_setitem (fst kv) (NInt n))
    [TypeError; ValueError]
    (fun _ =>
       logger WARNING "load_data: invalid quantity for %r -> %r, skipping").

(** [load_data(file="inventory.json")]. *)
Definition load_data (file : pyval) : M unit :=
  path <- Path file ;;
  found <- path_exists path ;;
  if negb found then
    logger INFO
      "load_data: file %r not found. Starting with empty inventory." ;;
    stock_clear
  else
    loaded <-
      try_except (data <- read_json path ;; ret (Some data))
        [OSError; JSONDecodeError]
        (fun _ =>
           logger ERROR "load_data: failed to load %r: %s" ;;
           stock_clear ;;
           ret None) ;;
    match loaded with
    | None => ret tt
    | Some data =>
        stock_clear ;;
        match data with
        | VDict d => for_each d load_entry
        | _ =>
            logger WARNING
              "load_data: data in %r is not a dict; starting with empty inventory."
        end
    end.

(** [save_data(file="inventory.json")]. *)
Definition save_data (file : pyval) : M unit :=
  path <- Path file ;;
  try_except
    (open_write path ;;
     json_dump path ;;
     logger INFO "save_data: inventory data saved to %r")
    [OSError]
    (fun _ =>
       logger ERROR "save_data: failed to save inventory data to %r: %s").

(** The header of the report, a line feed and [Inventory Report:]. *)
Definition report_header : string :=
  String (ascii_of_nat 10) "Inventory Report:".

(** [print_data()]. *)
Definition print_data : M unit :=
  print (PText report_header) ;;
  items <- stock_items ;;
  for_each items (fun kv => print (PItem (fst kv) (snd kv))) ;;
  logger INFO "print_data: inventory report printed.".

(** [check_low_items(threshold=5)]. *)
Definition check_low_items (threshold : pyval) : M (list string) :=
  thr <-
    try_except (eval (py_int threshold))
      [TypeError; ValueError]
      (fun _ =>
         logger WARNING
           "check_low_items: threshold must be an integer; got %r" ;;
         ret 5) ;;
  items <- stock_items ;;
  let result := map fst (filter (fun kv => num_ltb (snd kv) thr) items) in
  logger INFO "check_low_items: items below %d checked" ;;
  ret result.

(** The default arguments. *)
Definition default_item : pyval := VStr "default".
Definition default_logs : pyval := VNone.
Definition default_file : pyval := VStr "inventory.json".
Definition default_threshold : pyval := VInt 5.

(** [main()]. *)
Definition main : M unit :=
  add_item (VStr "apple") (VInt 10) default_logs ;;
  add_item (VStr "banana") (VInt 3) default_logs ;;
  add_item (VInt 123) (VStr "ten") default_logs ;;
  remove_item (VStr "apple") (VInt 3) ;;
  remove_item (VStr "orange") (VInt 1) ;;
  apples <- get_qty (VStr "apple") ;;
  print (PValue "Apple stock:" (VInt apples)) ;;
  low <- check_low_items default_threshold ;;
  print (PValue "Low items:" (VList (map VStr low))) ;;
  save_data default_file ;;
  load_data default_file ;;
  print_data.

(** The world at process start: an empty inventory; the files are given. *)
Definition initial (fs : string -> option file) (wr : string -> access)
  : world :=
  mkWorld [] fs wr [] [].

Definition no_files : string -> option file := fun _ => None.
Definition all_writable : string -> access := fun _ => Regular.
Definition none_writable : string -> access := fun _ => Refused OSError.

Definition empty_world : world := initial no_files all_writable.

(** ** Vocabulary of the properties *)

(** The float [m * 2^e], rounded as a literal is. *)
Definition float_lit (m e : Z) : spec_float :=
  binary_normalize prec emax m e false.

(** The outcome and the world after a call. *)
Definition outcome {A} (m : M A) (w : world) : result A := fst (m w).
Definition after {A} (m : M A) (w : world) : world := snd (m w).

(** The calls that mutate the inventory, and sequences of them; the caller
    goes on to the next call whatever the outcome of the previous one. *)
Inductive call : Type :=
| AddItem (item qty logs : pyval)
| RemoveItem (item qty : pyval)
| LoadData (file : pyval).

Definition exec (c : call) (w : world) : world :=
  match c with
  | AddItem item qty logs => after (add_item item qty logs) w
  | RemoveItem item qty => after (remove_item item qty) w
  | LoadData file => after (load_data file) w
  end.

Definition exec_all (cs : list call) (w : world) : world :=
  fold_left (fun w c => exec c w) cs w.





(** A quantity [int] accepts: an integer or a finite float. *)
Definition finite (q : num) : bool := returns (int_of_num q).

(** A quantity that survives [json.dump] and [int]: finite, and if an
    integer, one of at most 4300 digits. *)
Definition storable (q : num) : bool := finite q && negb (oversized_num q).

(** The names of the inventory can all be encoded in UTF-8. *)
Definition encodable_names (d : dict num) : bool :=
  forallb (fun kv => encodable (fst kv)) d.

(** The names of the inventory are ASCII, which every terminal encoding in
    use writes. *)
Definition ascii_names (d : dict num) : bool :=
  forallb (fun kv => is_ascii (fst kv)) d.

(** No quantity of the inventory is an integer of more than 4300 digits. *)
Definition printable (d : dict num) : bool :=
  negb (existsb (fun kv => oversized_num (snd kv)) d).

(** The quantity coerced to an integer, for a finite one. *)
Definition truncate (q : num) : Z :=
  match int_of_num q with Ret z => z | Raise _ => 0 end.

Definition coerced (d : dict num) : dict num :=
  map (fun kv => (fst kv, NInt (truncate (snd kv)))) d.


(** Worlds and files used as examples.  [stocked] is the inventory of
    [main] after its first two calls; [with_float name f] holds the float
    [f] under [name], put there by [add_item]. *)
Definition stocked : world :=
  after (add_item (VStr "banana") (VInt 3) VNone)
    (after (add_item (VStr "apple") (VInt 10) VNone) empty_world).

Definition with_float (name : string) (f : spec_float) : world :=
  after (add_item (VStr name) (VFloat f) VNone) empty_world.

(** [stocked] and 2.5 pears. *)
Definition with_pears : world :=
  after (add_item (VStr "pear") (VFloat (float_lit 5 (-1))) VNone) stocked.


Definition one_file (p : string) (f : file) : string -> option file :=
  fun q => if String.eqb q p then Some f else None.


(** *** Vocabulary of the further properties *)

(** The keys of a dictionary, in iteration order. *)
Definition keys {A} (d : dict A) : list string := map fst d.

(** An inventory of integers: the mapping the type annotation
    [Dict[str, int]] announces. *)
Definition is_int (q : num) : bool :=
  match q with NInt _ => true | NFloat _ => false end.

Definition int_valued (d : dict num) : Prop :=
  Forall (fun kv => is_int (snd kv) = true) d.




(** [load_data] raises before it has cleared the inventory: [exists()] or
    the read fails in a way that no handler of [load_data] names. *)
Definition escapes (f : option file) : bool :=
  match f with
  | Some Inaccessible | Some Undecodable | Some TooDeep => true
  | Some (Document v) => oversized v
  | _ => false
  end.

(** A call that brings no float: an [add_item] whose [qty] is not a
    float. *)
Definition brings_no_float (c : call) : bool :=
  match c with
  | AddItem _ (VFloat _) _ => false
  | _ => true
  end.


(** Unfolding of the statement combinators and of the primitive operations
    on the world. *)
Ltac unfold_stmt :=
  unfold outcome, after, bind, ret, raise, eval, try_except, logger,
    stock_items, stock_get, stock_contains, stock_getitem, stock_setitem,
    stock_delitem, stock_clear, list_append, audit_line, Path, path_exists,
    read_json, open_write, json_dump in *.

(** * Properties *)

(** ** Dictionaries *)

Section DictFacts.
Context {A : Type}.
Implicit Types (d : dict A) (k : string) (v : A).

Lemma dict_get_In d k v : dict_get k d = Some v -> In (k, v) d.
Proof.
  induction d as [|[k' v'] d IH]; simpl; [discriminate|].
  destruct (String.eqb_spec k k') as [->|_].
  - intros [= ->]. now left.
  - intros H. right. now apply IH.
Qed.

Lemma dict_get_None d k : dict_get k d = None <-> ~ In k (map fst d).
Proof.
  induction d as [|[k' v'] d IH]; simpl.
  - tauto.
  - destruct (String.eqb_spec k k') as [->|Hne].
    + split; [discriminate | intros H; exfalso; apply H; now left].
    + rewrite IH. split; [|tauto].
      intros H [E|E]; [now apply Hne | now apply H].
Qed.

Lemma dict_get_set_same d k v : dict_get k (dict_set k v d) = Some v.
Proof.
  induction d as [|[k' v'] d IH]; simpl.
  - now rewrite String.eqb_refl.
  - destruct (String.eqb_spec k k') as [->|Hne]; simpl.
    + now rewrite String.eqb_refl.
    + destruct (String.eqb_spec k k'); [contradiction | exact IH].
Qed.

Lemma dict_get_set_other d k k' v :
  k <> k' -> dict_get k (dict_set k' v d) = dict_get k d.
Proof.
  intros Hne. induction d as [|[k0 v0] d IH]; simpl.
  - destruct (String.eqb_spec k k'); [contradiction | reflexivity].
  - destruct (String.eqb_spec k' k0) as [->|Hne0]; simpl.
    + destruct (String.eqb_spec k k0); [contradiction | reflexivity].
    + destruct (String.eqb_spec k k0); [reflexivity | exact IH].
Qed.

Lemma dict_set_fresh d k v :
  dict_get k d = None -> dict_set k v d = (d ++ [(k, v)])%list.
Proof.
  induction d as [|[k' v'] d IH]; simpl; [reflexivity|].
  destruct (String.eqb_spec k k'); [discriminate|].
  intros H. now rewrite IH.
Qed.

Lemma dict_keys_set d k v :
  forall x, In x (map fst (dict_set k v d)) <-> x = k \/ In x (map fst d).
Proof.
  intros x. induction d as [|[k' v'] d IH]; simpl.
  - split; [intros [E|[]]; left; now symmetry | intros [E|[]]; left; now symmetry].
  - destruct (String.eqb_spec k k') as [->|Hne]; simpl.
    + split; [tauto | intros [->|H]; [now left | exact H]].
    + rewrite IH. tauto.
Qed.

Lemma dict_wf_set d k v : dict_wf d -> dict_wf (dict_set k v d).
Proof.
  unfold dict_wf. induction d as [|[k' v'] d IH]; simpl; intros Hwf.
  - constructor; [intros [] | constructor].
  - inversion Hwf as [|? ? Hnotin Hrest]; subst.
    destruct (String.eqb_spec k k') as [->|Hne]; simpl.
    + now constructor.
    + constructor; [|now apply IH].
      intros Hin. apply dict_keys_set in Hin as [E|Hin];
        [now apply Hne | now apply Hnotin].
Qed.

Lemma dict_keys_del d k :
  forall x, In x (map fst (dict_del k d)) -> In x (map fst d).
Proof.
  intros x. induction d as [|[k' v'] d IH]; simpl; [tauto|].
  destruct (String.eqb_spec k k'); simpl; [now right | tauto].
Qed.

Lemma dict_wf_del d k : dict_wf d -> dict_wf (dict_del k d).
Proof.
  unfold dict_wf. induction d as [|[k' v'] d IH]; simpl; intros Hwf.
  - constructor.
  - inversion Hwf as [|? ? Hnotin Hrest]; subst.
    destruct (String.eqb_spec k k'); simpl; [exact Hrest|].
    constructor; [|now apply IH].
    intros Hin. now apply Hnotin, (dict_keys_del d k).
Qed.


Lemma dict_get_del_other d k k' :
  k <> k' -> dict_get k (dict_del k' d) = dict_get k d.
Proof.
  intros Hne. induction d as [|[k0 v0] d IH]; simpl; [reflexivity|].
  destruct (String.eqb_spec k' k0) as [->|Hne0]; simpl.
  - destruct (String.eqb_spec k k0); [contradiction | reflexivity].
  - destruct (String.eqb_spec k k0); [reflexivity | exact IH].
Qed.

Lemma Forall_dict_set (P : string * A -> Prop) d k v :
  (forall k', P (k', v)) -> Forall P d -> Forall P (dict_set k v d).
Proof.
  intros Hv. induction d as [|[k' v'] d IH]; simpl; intros Hd.
  - constructor; [apply Hv | constructor].
  - inversion Hd; subst.
    destruct (String.eqb k k'); constructor; auto.
Qed.

Lemma Forall_dict_del (P : string * A -> Prop) d k :
  Forall P d -> Forall P (dict_del k d).
Proof.
  induction d as [|[k' v'] d IH]; simpl; intros Hd; [constructor|].
  inversion Hd; subst.
  destruct (String.eqb k k'); [assumption | constructor; auto].
Qed.
End DictFacts.

(** Printing touches standard output only. *)
Lemma print_frame (o : printed) (w : world) :
  stock_data (snd (print o w)) = stock_data w /\
  files (snd (print o w)) = files w.
Proof.
  unfold print. destruct o as [t | item q | label v]; simpl.
  - now split.
  - now destruct (oversized_num q), (encodable item).
  - now destruct (oversized v).
Qed.

Lemma for_each_print_items (l : dict num) (w : world) :
  stock_data (snd (for_each l (fun kv => print (PItem (fst kv) (snd kv))) w))
    = stock_data w /\
  files (snd (for_each l (fun kv => print (PItem (fst kv) (snd kv))) w))
    = files w.
Proof.
  revert w. induction l as [|kv l IH]; intros w; simpl.
  - now split.
  - unfold bind.
    destruct (print_frame (PItem (fst kv) (snd kv)) w) as [Hs Hf].
    destruct (print (PItem (fst kv) (snd kv)) w) as [[[]|e] w']; simpl in *.
    + destruct (IH w') as [Hs' Hf']. now rewrite Hs', Hf'.
    + now split.
Qed.

Lemma print_data_frame (w : world) :
  stock_data (snd (print_data w)) = stock_data w /\
  files (snd (print_data w)) = files w.
Proof.
  unfold print_data, bind, stock_items. simpl.
  destruct (for_each_print_items (stock_data w)
              (add_stdout w (PText report_header))) as [Hs Hf].
  destruct (for_each (stock_data w) _ _) as [[[]|e] w']; simpl in *;
    now split.
Qed.


(** ** The entry point *)

(** [main] on a fresh process with no inventory file: it returns, the
    inventory and the file end as [{"apple": 7, "banana": 3}], and the
    report lists low stock as ["banana"]. *)
Example main_runs :
  outcome main empty_world = Ret tt /\
  stock_data (after main empty_world)
    = [("apple", NInt 7); ("banana", NInt 3)] /\
  files (after main empty_world) "inventory.json"
    = Some (Document (VDict [("apple", VInt 7); ("banana", VInt 3)])) /\
  stdout (after main empty_world)
    = [PValue "Apple stock:" (VInt 7);
       PValue "Low items:" (VList [VStr "banana"]);
       PText report_header;
       PItem "apple" (NInt 7); PItem "banana" (NInt 3)] /\
  map fst (log (after main empty_world))
    = [INFO; INFO; WARNING; WARNING; INFO; INFO; INFO].
Proof. vm_compute. repeat split. Qed.

(** ** [add_item] with invalid arguments *)

Lemma invalid_add_item_unfolds (item qty logs : pyval) (w : world) :
  isinstance_str item = false \/ isinstance_int_float qty = false ->
  add_item item qty logs w =
    (Ret tt,
     add_log w
       (WARNING, "Invalid item or quantity type provided: item=%r qty=%r")) /\
  stock_data (after (add_item item qty logs) w) = stock_data w.
Proof.
  intros H. unfold add_item, after.
  assert (E : negb (isinstance_str item) || negb (isinstance_int_float qty)
              = true).
  { destruct H as [-> | ->]; simpl; [reflexivity | apply orb_true_r]. }
  rewrite E. unfold_stmt. simpl. split; reflexivity.
Qed.



(** ** The functions that only read *)

(** C10: [get_qty], [check_low_items], [print_data] and [save_data] leave
    the inventory dictionary as it was, whatever their arguments and
    whether they return or raise (a failed write included). *)
Theorem readers_leave_stock_unchanged
    (w : world) (item threshold file : pyval) :
  stock_data (after (get_qty item) w) = stock_data w /\
  stock_data (after (check_low_items threshold) w) = stock_data w /\
  stock_data (after print_data w) = stock_data w /\
  stock_data (after (save_data file) w) = stock_data w.
Proof.
  repeat split.
  - unfold get_qty. destruct item; unfold_stmt; reflexivity.
  - unfold check_low_items. unfold_stmt.
    destruct (py_int threshold) as [thr|e]; [reflexivity|].
    destruct e; reflexivity.
  - apply print_data_frame.
  - unfold save_data. destruct file; unfold_stmt; simpl; try reflexivity.
    destruct (writable w s) as [| |e] eqn:Hw; simpl.
    + destruct (dump_error (stock_data w)) as [e|]; simpl;
        [destruct e; reflexivity | now rewrite Hw].
    + destruct (dump_error (stock_data w)) as [e|]; simpl;
        [destruct e; reflexivity | now rewrite Hw].
    + destruct e; reflexivity.
Qed.

(** ** [get_qty] *)




(** ** [check_low_items] *)




(** ** [remove_item] *)

Lemma num_leb_int (x z : Z) : num_leb (NInt x) z = (x <=? z).
Proof.
  unfold num_leb, num_compare_int, Z.leb. now destruct (x ?= z).
Qed.

Lemma dict_del_set {A} (d : dict A) (k : string) (v x : A) :
  dict_get k d = Some x -> dict_del k (dict_set k v d) = dict_del k d.
Proof.
  induction d as [|[k' v'] d IH]; simpl; [discriminate|].
  destruct (String.eqb_spec k k') as [->|Hne]; simpl.
  - now rewrite String.eqb_refl.
  - destruct (String.eqb_spec k k'); [contradiction|].
    intros H. now rewrite IH.
Qed.


(** What [remove_item] does to a present item once the subtraction has
    produced [q']. *)
Lemma remove_item_present (w : world) (name : string) (qty : pyval)
    (n : Z) (q q' : num) :
  py_int qty = Ret n ->
  dict_get name (stock_data w) = Some q ->
  py_sub q n = Ret q' ->
  outcome (remove_item (VStr name) qty) w = Ret tt /\
  stock_data (after (remove_item (VStr name) qty) w)
    = if num_leb q' 0 then dict_del name (stock_data w)
      else dict_set name q' (stock_data w).
Proof.
  intros Hint Hget Hsub. unfold remove_item. unfold_stmt.
  rewrite Hint. simpl. unfold dict_mem. rewrite Hget. simpl.
  rewrite Hget, Hsub. simpl. rewrite dict_get_set_same.
  destruct (num_leb q' 0); simpl; [|split; reflexivity].
  unfold dict_mem. rewrite dict_get_set_same. simpl.
  split; [reflexivity|]. now apply dict_del_set with (x := q).
Qed.




(** ** [add_item] followed by [get_qty] *)

(** The inventory after a valid [add_item], whether or not the append to
    [logs] then succeeds. *)
Lemma add_item_valid_stock (w : world) (name : string) (qty logs : pyval)
    (q sum : num) :
  as_num qty = Some q ->
  py_add match dict_get name (stock_data w) with
         | Some cur => cur
         | None => NInt 0
         end q = Ret sum ->
  stock_data (after (add_item (VStr name) qty logs) w)
    = dict_set name sum (stock_data w).
Proof.
  intros Hnum Hsum. unfold add_item.
  assert (E : isinstance_int_float qty = true)
    by (destruct qty; simpl in *; congruence).
  rewrite E, Hnum. simpl. unfold_stmt. simpl. rewrite Hsum. simpl.
  destruct logs; try reflexivity;
    (destruct qty as [| |z| | | |]; try reflexivity;
     destruct (too_long z); reflexivity).
Qed.

(** C4, as the code has it: for a string [item] and an integer [qty] (an
    [int] or a [bool], of either sign), when [item] is absent or its stored
    quantity is an integer, [get_qty(item)] after [add_item(item, qty)] is
    [get_qty(item)] before the call plus [qty], whatever [logs] is and
    whether [add_item] returns or raises after its update. *)
Theorem add_item_int_adds_to_get_qty
    (w : world) (name : string) (qty logs : pyval) (z : Z) :
  as_num qty = Some (NInt z) ->
  (dict_get name (stock_data w) = None \/
   exists x, dict_get name (stock_data w) = Some (NInt x)) ->
  exists before,
    outcome (get_qty (VStr name)) w = Ret before /\
    outcome (get_qty (VStr name))
      (after (add_item (VStr name) qty logs) w) = Ret (before + z).
Proof.
  intros Hnum Hcur.
  assert (Hsum : exists x,
             match dict_get name (stock_data w) with
             | Some cur => cur
             | None => NInt 0
             end = NInt x /\
             outcome (get_qty (VStr name)) w = Ret x).
  { unfold get_qty. unfold_stmt. simpl.
    destruct Hcur as [-> | [x ->]]; [now exists 0 | now exists x]. }
  destruct Hsum as [x [Hx Hbefore]].
  exists x. split; [exact Hbefore|].
  assert (Hstock : stock_data (after (add_item (VStr name) qty logs) w)
                   = dict_set name (NInt (x + z)) (stock_data w)).
  { apply add_item_valid_stock with (q := NInt z); [exact Hnum|].
    now rewrite Hx. }
  generalize dependent (after (add_item (VStr name) qty logs) w).
  intros w' Hstock. unfold get_qty. unfold_stmt. simpl.
  now rewrite Hstock, dict_get_set_same.
Qed.

Lemma add_item_int_adds_to_get_qty_witness :
  as_num (VInt 4) = Some (NInt 4) /\
  (dict_get "apple" (stock_data stocked) = None \/
   exists x, dict_get "apple" (stock_data stocked) = Some (NInt x)) /\
  exists before,
    outcome (get_qty (VStr "apple")) stocked = Ret before /\
    outcome (get_qty (VStr "apple"))
      (after (add_item (VStr "apple") (VInt 4) VNone) stocked)
      = Ret (before + 4).
Proof.
  assert (Hnum : as_num (VInt 4) = Some (NInt 4)) by reflexivity.
  assert (Hcur : dict_get "apple" (stock_data stocked) = None \/
                 exists x, dict_get "apple" (stock_data stocked)
                           = Some (NInt x))
    by (right; exists 10; reflexivity).
  split; [exact Hnum|]. split; [exact Hcur|].
  exact (add_item_int_adds_to_get_qty stocked "apple" (VInt 4) VNone 4
           Hnum Hcur).
Defined.

(** C4 as stated fails for a numeric [qty] that is not an integer: on the
    empty inventory [get_qty("x")] is 0 before and after
    [add_item("x", 0.5)], while 0 + 0.5 is 0.5 and not 0. *)
Lemma add_item_half_not_added :
  isinstance_int_float (VFloat (float_lit 1 (-1))) = true /\
  float_compare_int (float_lit 1 (-1)) 0 = Some Gt /\
  outcome (get_qty (VStr "x")) empty_world = Ret 0 /\
  outcome (add_item (VStr "x") (VFloat (float_lit 1 (-1))) VNone) empty_world
    = Ret tt /\
  outcome (get_qty (VStr "x")) (with_float "x" (float_lit 1 (-1))) = Ret 0 /\
  py_add (NInt 0) (NFloat (float_lit 1 (-1)))
    = Ret (NFloat (float_lit 1 (-1))) /\
  num_eqb (NFloat (float_lit 1 (-1))) 0 = false.
Proof. vm_compute. repeat split. Qed.

(** ** [load_data], by what the path leads to *)

Lemma load_data_unfolds (w : world) (p : string) :
  load_data (VStr p) w
    = match files w p with
      | None =>
          (Ret tt,
           set_stock
             (add_log w
                (INFO,
                 "load_data: file %r not found. Starting with empty inventory."))
             [])
      | Some Inaccessible => (Raise OSError, w)
      | Some Unreadable | Some Malformed =>
          (Ret tt,
           set_stock (add_log w (ERROR, "load_data: failed to load %r: %s"))
                     [])
      | Some Undecodable => (Raise UnicodeDecodeError, w)
      | Some TooDeep => (Raise RecursionError, w)
      | Some (Document v) =>
          if oversized v then (Raise ValueError, w)
          else
            match v with
            | VDict d => for_each d load_entry (set_stock w [])
            | _ =>
                (Ret tt,
                 add_log (set_stock w [])
                   (WARNING,
                    "load_data: data in %r is not a dict; starting with empty inventory."))
            end
      end.
Proof.
  unfold load_data. unfold_stmt. simpl.
  destruct (files w p) as [f|] eqn:Hf; simpl; [|reflexivity].
  destruct f as [| | |v| |]; simpl; try rewrite Hf; simpl;
    try reflexivity.
  destruct (oversized v); simpl; [reflexivity|].
  destruct v; reflexivity.
Qed.

(** What [load_data] can do to the inventory: leave it (an exception
    before it is cleared), empty it, or empty it and run the loop. *)
Lemma load_data_stock (w : world) (file : pyval) :
  stock_data (after (load_data file) w) = stock_data w \/
  stock_data (after (load_data file) w) = [] \/
  exists p d,
    file = VStr p /\ files w p = Some (Document (VDict d)) /\
    load_data file w = for_each d load_entry (set_stock w []).
Proof.
  destruct file as [| | | |p| |];
    try (left; unfold load_data; unfold_stmt; reflexivity).
  pose proof (load_data_unfolds w p) as E. unfold after.
  destruct (files w p) as [f|] eqn:Hf;
    [|right; left; now rewrite E].
  destruct f as [| | |v| |];
    try (left; now rewrite E); try (right; left; now rewrite E).
  destruct (oversized v) eqn:Hov; [left; now rewrite E|].
  destruct v; try (right; left; now rewrite E).
  right; right. exists p, d. split; [reflexivity|]. split; [exact Hf|exact E].
Qed.

(** ** The invariant: stored quantities are positive *)












(** ** The dictionary stays a dictionary *)

(** What a call can do to the inventory: [add_item] leaves it alone or sets
    one key, [remove_item] leaves it alone, sets one key or deletes it. *)
Lemma add_item_stock (w : world) (item qty logs : pyval) :
  stock_data (after (add_item item qty logs) w) = stock_data w \/
  exists name sum,
    item = VStr name /\
    stock_data (after (add_item item qty logs) w)
      = dict_set name sum (stock_data w).
Proof.
  destruct (isinstance_str item) eqn:Hstr.
  2:{ left. apply invalid_add_item_unfolds. now left. }
  destruct (as_num qty) as [q|] eqn:Hnum.
  2:{ left. apply invalid_add_item_unfolds. right.
      destruct qty; simpl in *; congruence. }
  destruct item as [| | | |name| |]; try discriminate.
  destruct (py_add match dict_get name (stock_data w) with
                   | Some cur => cur
                   | None => NInt 0
                   end q) as [sum|e] eqn:Hsum.
  - right. exists name, sum. split; [reflexivity|].
    now apply add_item_valid_stock with (q := q).
  - left. unfold add_item.
    assert (E : isinstance_int_float qty = true)
      by (destruct qty; simpl in *; congruence).
    rewrite E, Hnum. simpl. unfold_stmt. simpl. now rewrite Hsum.
Qed.

Lemma remove_item_stock (w : world) (item qty : pyval) :
  stock_data (after (remove_item item qty) w) = stock_data w \/
  exists name,
    item = VStr name /\
    (stock_data (after (remove_item item qty) w)
       = dict_del name (stock_data w) \/
     exists q, stock_data (after (remove_item item qty) w)
               = dict_set name q (stock_data w)).
Proof.
  destruct item as [| | | |name| |];
    try (left; unfold remove_item; unfold_stmt; reflexivity).
  destruct (py_int qty) as [n|e] eqn:Hint.
  2:{ left. unfold remove_item. unfold_stmt. rewrite Hint.
      destruct e; reflexivity. }
  destruct (dict_get name (stock_data w)) as [cur|] eqn:Hcur.
  2:{ left. unfold remove_item. unfold_stmt. rewrite Hint. simpl.
      unfold dict_mem. now rewrite Hcur. }
  destruct (py_sub cur n) as [q'|e] eqn:Hsub.
  - right. exists name. split; [reflexivity|].
    destruct (remove_item_present w name qty n cur q' Hint Hcur Hsub)
      as [_ ->].
    destruct (num_leb q' 0); [now left | right; now exists q'].
  - left. unfold remove_item. unfold_stmt. rewrite Hint. simpl.
    unfold dict_mem. rewrite Hcur. simpl. rewrite Hcur, Hsub.
    destruct e; reflexivity.
Qed.

Lemma load_loop_keeps_wf (d : list (string * pyval)) (w : world) :
  dict_wf (stock_data w) ->
  dict_wf (stock_data (after (for_each d load_entry) w)).
Proof.
  revert w. induction d as [|[k v] d IH]; intros w Hwf; simpl.
  - exact Hwf.
  - unfold after, bind. unfold load_entry at 1. unfold_stmt. simpl.
    destruct (py_int v) as [z|e]; simpl.
    + apply IH. simpl. now apply dict_wf_set.
    + destruct e; simpl; try exact Hwf; apply IH; exact Hwf.
Qed.

Lemma load_data_keeps_wf (w : world) (file : pyval) :
  dict_wf (stock_data w) ->
  dict_wf (stock_data (after (load_data file) w)).
Proof.
  intros Hwf.
  destruct (load_data_stock w file) as [-> | [-> | [p [d [-> [Hf E]]]]]].
  - exact Hwf.
  - constructor.
  - unfold after. rewrite E. apply (load_loop_keeps_wf d). constructor.
Qed.

(** Every state reached from the empty inventory is a dictionary: no key
    occurs twice. *)
Lemma exec_keeps_wf (c : call) (w : world) :
  dict_wf (stock_data w) -> dict_wf (stock_data (exec c w)).
Proof.
  intros Hwf. destruct c as [item qty logs | item qty | file]; simpl.
  - destruct (add_item_stock w item qty logs) as [-> | [name [sum [_ ->]]]];
      [exact Hwf | now apply dict_wf_set].
  - destruct (remove_item_stock w item qty)
      as [-> | [name [_ [-> | [q ->]]]]];
      [exact Hwf | now apply dict_wf_del | now apply dict_wf_set].
  - now apply load_data_keeps_wf.
Qed.

Lemma exec_all_keeps_wf (cs : list call) (w : world) :
  dict_wf (stock_data w) -> dict_wf (stock_data (exec_all cs w)).
Proof.
  revert w. induction cs as [|c cs IH]; intros w Hwf; simpl.
  - exact Hwf.
  - apply IH. now apply exec_keeps_wf.
Qed.

(** A call on one item leaves the quantity of every other item alone. *)
Lemma add_item_other_keys (w : world) (name : string) (qty logs : pyval)
    (k : string) :
  k <> name ->
  dict_get k (stock_data (after (add_item (VStr name) qty logs) w))
    = dict_get k (stock_data w).
Proof.
  intros Hne.
  destruct (add_item_stock w (VStr name) qty logs)
    as [-> | [name' [sum [[= <-] ->]]]]; [reflexivity|].
  now apply dict_get_set_other.
Qed.

Lemma remove_item_other_keys (w : world) (name : string) (qty : pyval)
    (k : string) :
  k <> name ->
  dict_get k (stock_data (after (remove_item (VStr name) qty) w))
    = dict_get k (stock_data w).
Proof.
  intros Hne.
  destruct (remove_item_stock w (VStr name) qty)
    as [-> | [name' [[= <-] [-> | [q ->]]]]]; [reflexivity | |].
  - now apply dict_get_del_other.
  - now apply dict_get_set_other.
Qed.

(** ** Saving and loading back *)

Lemma coerced_int_valued (d : dict num) :
  Forall (fun kv => exists z, snd kv = NInt z) d -> coerced d = d.
Proof.
  unfold coerced. induction 1 as [|[k v] d [z Hz] _ IH]; simpl.
  - reflexivity.
  - simpl in Hz. subst v. now rewrite IH.
Qed.

(** The loop of [load_data] on the document of a dictionary whose quantities
    are all finite, none of whose keys is in the inventory yet. *)
Lemma load_loop_coerces (d : dict num) (w : world) :
  Forall (fun kv => finite (snd kv) = true) d ->
  dict_wf d ->
  (forall k, In k (map fst d) -> dict_get k (stock_data w) = None) ->
  outcome (for_each (map (fun kv => (fst kv, pyval_of_num (snd kv))) d)
                    load_entry) w = Ret tt /\
  stock_data (after (for_each (map (fun kv => (fst kv, pyval_of_num (snd kv))) d)
                              load_entry) w)
    = (stock_data w ++ coerced d)%list.
Proof.
  unfold dict_wf.
  revert w. induction d as [|[k v] d IH]; intros w Hfin Hwf Hfresh; simpl.
  - unfold outcome, after, ret. simpl. now rewrite app_nil_r.
  - inversion Hfin as [|? ? Hv Hfin']; subst.
    inversion Hwf as [|? ? Hnotin Hwf']; subst.
    unfold outcome, after, bind. unfold load_entry at 1 3.
    unfold try_except, bind, eval, stock_setitem. simpl.
    unfold finite, truncate in *. simpl in Hv.
    fold (int_of_num v). destruct (int_of_num v) as [z|e]; [|discriminate].
    simpl.
    assert (Hset : dict_set k (NInt z) (stock_data w)
                   = (stock_data w ++ [(k, NInt z)])%list).
    { apply dict_set_fresh, Hfresh. now left. }
    destruct (IH (set_stock w (dict_set k (NInt z) (stock_data w)))
                Hfin' Hwf') as [Hout Hstock].
    { intros k' Hk'. simpl. rewrite Hset.
      apply dict_get_None. rewrite map_app. simpl. intros Hin.
      apply in_app_or in Hin as [Hin|[<-|[]]].
      - apply (proj1 (dict_get_None (stock_data w) k')); [|exact Hin].
        apply Hfresh. now right.
      - now apply Hnotin. }
    unfold outcome, after in Hout, Hstock.
    split; [exact Hout|].
    rewrite Hstock. simpl. rewrite Hset, <- app_assoc. reflexivity.
Qed.

Lemma storable_finite (d : dict num) :
  Forall (fun kv => storable (snd kv) = true) d ->
  Forall (fun kv => finite (snd kv) = true) d.
Proof.
  apply Forall_impl. intros kv H. unfold storable in H.
  now apply andb_prop in H as [H _].
Qed.

Lemma storable_not_oversized (d : dict num) :
  Forall (fun kv => storable (snd kv) = true) d ->
  existsb (fun kv => oversized_num (snd kv)) d = false /\
  oversized (document_of d) = false.
Proof.
  unfold document_of. induction 1 as [|[k q] d Hq _ [IH1 IH2]]; simpl.
  - now split.
  - unfold storable in Hq. apply andb_prop in Hq as [_ Hq].
    apply negb_true_iff in Hq. simpl in Hq, IH2.
    rewrite IH1, IH2. destruct q as [z|f]; simpl in *; rewrite ?Hq; now split.
Qed.

Lemma dump_error_none (d : dict num) :
  encodable_names d = true ->
  existsb (fun kv => oversized_num (snd kv)) d = false ->
  dump_error d = None.
Proof.
  unfold encodable_names. induction d as [|[k q] d IH]; simpl; [reflexivity|].
  intros Hn Ho. apply andb_prop in Hn as [Hk Hn].
  apply orb_false_elim in Ho as [Hq Ho].
  rewrite Hk, Hq. simpl. now apply IH.
Qed.

Lemma save_data_writes (w : world) (p : string) :
  writable w p = Regular ->
  dump_error (stock_data w) = None ->
  save_data (VStr p) w =
    (Ret tt,
     add_log
       (set_file (set_file w p Malformed) p
                 (Document (document_of (stock_data w))))
       (INFO, "save_data: inventory data saved to %r")).
Proof.
  intros Hw Hov. unfold save_data. unfold_stmt. simpl.
  rewrite Hw. simpl. rewrite Hov, Hw. reflexivity.
Qed.

Lemma load_data_document (w : world) (p : string) (d : list (string * pyval)) :
  files w p = Some (Document (VDict d)) ->
  oversized (VDict d) = false ->
  load_data (VStr p) w = for_each d load_entry (set_stock w []).
Proof.
  intros Hf Hov. now rewrite load_data_unfolds, Hf, Hov.
Qed.

(** C2, as the code has it: when every stored quantity is an integer of at
    most 4300 digits or a finite float, every name can be encoded in UTF-8
    (it has no lone surrogate), and the path is a regular file (opening it
    for writing succeeds and what is written is what a later read returns),
    [save_data(path)] followed by [load_data(path)] both return normally
    and leave the inventory with the same keys in the same order, every
    quantity coerced to an integer by [int]; an inventory of integers is
    restored exactly. *)
Theorem save_then_load_restores (w : world) (p : string) :
  dict_wf (stock_data w) ->
  writable w p = Regular ->
  encodable_names (stock_data w) = true ->
  Forall (fun kv => storable (snd kv) = true) (stock_data w) ->
  outcome (save_data (VStr p)) w = Ret tt /\
  outcome (load_data (VStr p)) (after (save_data (VStr p)) w) = Ret tt /\
  stock_data (after (load_data (VStr p)) (after (save_data (VStr p)) w))
    = coerced (stock_data w) /\
  (Forall (fun kv => exists z, snd kv = NInt z) (stock_data w) ->
   stock_data (after (load_data (VStr p)) (after (save_data (VStr p)) w))
     = stock_data w).
Proof.
  intros Hwf Hw Hnames Hst.
  destruct (storable_not_oversized _ Hst) as [Hov Hdoc].
  unfold outcome, after.
  rewrite (save_data_writes w p Hw (dump_error_none _ Hnames Hov)). simpl.
  rewrite (load_data_document _ p
             (map (fun kv => (fst kv, pyval_of_num (snd kv))) (stock_data w)))
    by (simpl; try rewrite String.eqb_refl; try reflexivity; exact Hdoc).
  match goal with
  | |- context [for_each _ load_entry ?w0] =>
      destruct (load_loop_coerces (stock_data w) w0
                  (storable_finite _ Hst) Hwf) as [Hout Hstock];
        [intros k _; reflexivity|]
  end.
  unfold outcome, after in Hout, Hstock. simpl in Hstock.
  split; [reflexivity|]. split; [exact Hout|]. split; [exact Hstock|].
  intros Hints. rewrite Hstock. now apply coerced_int_valued.
Qed.

Lemma save_then_load_restores_witness :
  dict_wf (stock_data with_pears) /\
  writable with_pears "inventory.json" = Regular /\
  encodable_names (stock_data with_pears) = true /\
  Forall (fun kv => storable (snd kv) = true) (stock_data with_pears) /\
  stock_data
    (after (load_data default_file) (after (save_data default_file) with_pears))
    = [("apple", NInt 10); ("banana", NInt 3); ("pear", NInt 2)].
Proof.
  assert (Hwf : dict_wf (stock_data with_pears)).
  { repeat constructor; simpl; intuition discriminate. }
  assert (Hst : Forall (fun kv => storable (snd kv) = true)
                  (stock_data with_pears)).
  { repeat constructor. }
  split; [exact Hwf|]. split; [reflexivity|]. split; [reflexivity|].
  split; [exact Hst|].
  exact (proj1 (proj2 (proj2
           (save_then_load_restores with_pears "inventory.json"
              Hwf eq_refl eq_refl Hst)))).
Defined.

(** C2 as stated fails for the quantities [int] does not accept, which
    [add_item] stores like any other float: an infinite quantity is written
    as [Infinity], and loading it back raises [OverflowError] out of
    [load_data] with the inventory emptied; a NaN is written as [NaN] and
    its key is skipped on the way back. *)
Lemma save_then_load_loses_infinity :
  stock_data (with_float "x" float_inf) = [("x", NFloat float_inf)] /\
  outcome (save_data default_file) (with_float "x" float_inf) = Ret tt /\
  outcome (load_data default_file)
    (after (save_data default_file) (with_float "x" float_inf))
    = Raise OverflowError /\
  stock_data (after (load_data default_file)
                (after (save_data default_file) (with_float "x" float_inf)))
    = [] /\
  stock_data (with_float "y" float_nan) = [("y", NFloat float_nan)] /\
  outcome (load_data default_file)
    (after (save_data default_file) (with_float "y" float_nan)) = Ret tt /\
  stock_data (after (load_data default_file)
                (after (save_data default_file) (with_float "y" float_nan)))
    = [].
Proof. vm_compute. repeat split. Qed.

(** ** [load_data] on files it cannot use *)

(** A missing file, a file that cannot be opened, text that is not JSON and
    a document that is not an object all leave the inventory empty, and
    [load_data] returns. *)
Lemma load_data_falls_back_to_empty (w : world) (p : string) :
  files w p = None \/ files w p = Some Unreadable \/
  files w p = Some Malformed \/
  (exists v, files w p = Some (Document v) /\ oversized v = false /\
             forall d, v <> VDict d) ->
  outcome (load_data (VStr p)) w = Ret tt /\
  stock_data (after (load_data (VStr p)) w) = [].
Proof.
  intros H. unfold outcome, after. rewrite load_data_unfolds.
  destruct H as [Hf | [Hf | [Hf | [v [Hf [Hov Hv]]]]]];
    rewrite Hf; try (split; reflexivity).
  rewrite Hov. destruct v; try (split; reflexivity).
  now destruct (Hv d).
Qed.

(** One turn of the loop: a value [int] accepts is stored, a value on which
    [int] raises [TypeError] or [ValueError] is skipped with a warning. *)
Lemma load_entry_stores (w : world) (k : string) (v : pyval) (n : Z) :
  py_int v = Ret n ->
  load_entry (k, v) w
    = (Ret tt, set_stock w (dict_set k (NInt n) (stock_data w))).
Proof.
  intros Hint. unfold load_entry. unfold_stmt. simpl. now rewrite Hint.
Qed.

Lemma load_entry_skips (w : world) (k : string) (v : pyval) :
  py_int v = Raise TypeError \/ py_int v = Raise ValueError ->
  load_entry (k, v) w
    = (Ret tt,
       add_log w
         (WARNING, "load_data: invalid quantity for %r -> %r, skipping")).
Proof.
  intros H. unfold load_entry. unfold_stmt. simpl.
  destruct H as [-> | ->]; reflexivity.
Qed.

(** C6: [load_data] on [{"apple": 3, "pear": 1e999, "fig": 2}].  The number
    1e999 is read as the float infinity, [int] raises [OverflowError] on it,
    the handler names only [TypeError] and [ValueError]: the exception
    leaves [load_data], "pear" is not skipped and "fig" is never loaded.
    Likewise a file whose bytes are not UTF-8 raises [UnicodeDecodeError]
    past the handler of the read, and the inventory is not even cleared. *)
Theorem load_data_infinite_value_escapes :
  outcome (load_data default_file)
    (initial (one_file "inventory.json"
                (Document (VDict [("apple", VInt 3);
                                  ("pear", VFloat float_inf);
                                  ("fig", VInt 2)])))
             all_writable)
    = Raise OverflowError /\
  stock_data
    (after (load_data default_file)
       (initial (one_file "inventory.json"
                   (Document (VDict [("apple", VInt 3);
                                     ("pear", VFloat float_inf);
                                     ("fig", VInt 2)])))
                all_writable))
    = [("apple", NInt 3)] /\
  outcome (load_data default_file)
    (mkWorld (stock_data stocked) (one_file "inventory.json" Undecodable)
             all_writable [] [])
    = Raise UnicodeDecodeError /\
  stock_data
    (after (load_data default_file)
       (mkWorld (stock_data stocked) (one_file "inventory.json" Undecodable)
                all_writable [] []))
    = stock_data stocked.
Proof. vm_compute. repeat split. Qed.

(** ** Exceptions that reach the caller *)

(** C5: calls on which an exception leaves a public function.  [int] of an
    infinite float raises [OverflowError], which the handlers of
    [remove_item] and [check_low_items] do not name; [get_qty] has no
    handler around [int] and a stored NaN makes it raise [ValueError];
    [add_item] calls [append] on whatever [logs] is, after it has updated
    the inventory; [load_data] and [save_data] build the [Path] outside
    their handlers. *)
Theorem exceptions_reach_the_caller :
  outcome (remove_item (VStr "apple") (VFloat float_inf)) stocked
    = Raise OverflowError /\
  outcome (check_low_items (VFloat float_inf)) stocked
    = Raise OverflowError /\
  outcome (get_qty (VStr "fig")) (with_float "fig" float_nan)
    = Raise ValueError /\
  outcome (add_item (VStr "apple") (VInt 1) (VInt 5)) stocked
    = Raise AttributeError /\
  stock_data (after (add_item (VStr "apple") (VInt 1) (VInt 5)) stocked)
    = [("apple", NInt 11); ("banana", NInt 3)] /\
  outcome (load_data (VInt 123)) stocked = Raise TypeError /\
  outcome (save_data VNone) stocked = Raise TypeError.
Proof. vm_compute. repeat split. Qed.

(** * Further properties of the code *)

(** ** What the coercions can raise *)

Lemma float_of_int_raises (z : Z) (e : exn) :
  float_of_int z = Raise e -> e = OverflowError.
Proof.
  unfold float_of_int.
  destruct (binary_normalize prec emax z 0 false); congruence.
Qed.

Lemma py_sub_raises (q : num) (n : Z) (e : exn) :
  py_sub q n = Raise e -> e = OverflowError.
Proof.
  destruct q as [x|f]; simpl; [discriminate|].
  destruct (float_of_int n) as [g|e'] eqn:Hg; [discriminate|].
  intros [= <-]. now apply float_of_int_raises in Hg.
Qed.


Lemma py_int_raises (v : pyval) (e : exn) :
  py_int v = Raise e ->
  e = TypeError \/ e = ValueError \/ e = OverflowError.
Proof.
  destruct v as [|b|z|f|s|l|d]; simpl; try discriminate;
    try (intros [= <-]; now left).
  - destruct f; simpl; try discriminate; intros [= <-]; auto.
  - unfold int_of_string.
    destruct (match strip (list_ascii_of_string s) with
              | [] => digits (strip (list_ascii_of_string s))
              | c :: l' => _
              end);
      [destruct (max_str_digits <? _); [|discriminate]|];
      intros [= <-]; auto.
Qed.

Lemma py_int_of_int (qty : pyval) (n : Z) :
  as_num qty = Some (NInt n) -> py_int qty = Ret n.
Proof.
  destruct qty; simpl; try discriminate; now intros [= <-].
Qed.

(** ** The cases of [remove_item] and [add_item] *)

(** Every call of [remove_item] ends in one of four ways: a warning and
    nothing else; [OverflowError] and nothing else; the quantity replaced by
    one that is not <= 0; the key deleted and an INFO record. *)
Lemma remove_item_cases (w : world) (item qty : pyval) :
  (exists msg, remove_item item qty w = (Ret tt, add_log w (WARNING, msg))) \/
  remove_item item qty w = (Raise OverflowError, w) \/
  (exists name q,
     item = VStr name /\ num_leb q 0 = false /\
     dict_mem name (stock_data w) = true /\
     remove_item item qty w
       = (Ret tt, set_stock w (dict_set name q (stock_data w)))) \/
  (exists name,
     item = VStr name /\
     dict_mem name (stock_data w) = true /\
     remove_item item qty w
       = (Ret tt,
          add_log (set_stock w (dict_del name (stock_data w)))
                  (INFO, "remove_item: %s removed from inventory."))).
Proof.
  destruct item as [| | | |name| |];
    try (left; eexists; unfold remove_item; unfold_stmt; reflexivity).
  destruct (py_int qty) as [n|e] eqn:Hint.
  2:{ destruct (py_int_raises qty e Hint) as [-> | [-> | ->]];
        [left; eexists | left; eexists | right; left];
        unfold remove_item; unfold_stmt; rewrite Hint; reflexivity. }
  destruct (dict_get name (stock_data w)) as [cur|] eqn:Hcur.
  2:{ left. eexists. unfold remove_item. unfold_stmt. rewrite Hint. simpl.
      unfold dict_mem. rewrite Hcur. reflexivity. }
  destruct (py_sub cur n) as [q'|e] eqn:Hsub.
  2:{ right; left. rewrite (py_sub_raises cur n e Hsub) in Hsub.
      unfold remove_item. unfold_stmt. rewrite Hint. simpl.
      unfold dict_mem. rewrite Hcur. simpl. rewrite Hcur, Hsub.
      reflexivity. }
  right; right.
  destruct (num_leb q' 0) eqn:Hle.
  - right. exists name. split; [reflexivity|].
    split; [unfold dict_mem; now rewrite Hcur|].
    unfold remove_item. unfold_stmt. rewrite Hint. simpl.
    unfold dict_mem. rewrite Hcur. simpl. rewrite Hcur, Hsub. simpl.
    rewrite dict_get_set_same, Hle. simpl.
    unfold dict_mem. rewrite dict_get_set_same. simpl.
    unfold set_stock. simpl.
    now rewrite (dict_del_set (stock_data w) name q' cur Hcur).
  - left. exists name, q'. split; [reflexivity|]. split; [exact Hle|].
    split; [unfold dict_mem; now rewrite Hcur|].
    unfold remove_item. unfold_stmt. rewrite Hint. simpl.
    unfold dict_mem. rewrite Hcur. simpl. rewrite Hcur, Hsub. simpl.
    now rewrite dict_get_set_same, Hle.
Qed.


Lemma keys_dict_set {A} (d : dict A) (k : string) (v : A) :
  keys (dict_set k v d)
    = if dict_mem k d then keys d else (keys d ++ [k])%list.
Proof.
  unfold keys, dict_mem. induction d as [|[k' v'] d IH]; simpl.
  - reflexivity.
  - destruct (String.eqb_spec k k') as [->|Hne]; simpl; [reflexivity|].
    rewrite IH. now destruct (dict_get k d).
Qed.

Lemma keys_dict_del {A} (d : dict A) (k : string) :
  keys (dict_del k d) = keys d \/
  exists l1 l2,
    keys d = (l1 ++ k :: l2)%list /\ keys (dict_del k d) = (l1 ++ l2)%list.
Proof.
  unfold keys. induction d as [|[k' v'] d IH]; simpl.
  - now left.
  - destruct (String.eqb_spec k k') as [->|Hne]; simpl.
    + right. now exists [], (map fst d).
    + destruct IH as [-> | [l1 [l2 [H1 H2]]]]; [now left|].
      right. exists (k' :: l1), l2. simpl. now rewrite H1, H2.
Qed.

(** ** One item at a time *)

(** X1: [add_item] and [remove_item] on one item leave the quantity of
    every other item as it was, whatever [qty] and [logs] are and whether
    the call returns or raises. *)
Theorem other_items_untouched
    (w : world) (name k : string) (qty logs : pyval) :
  k <> name ->
  dict_get k (stock_data (after (add_item (VStr name) qty logs) w))
    = dict_get k (stock_data w) /\
  dict_get k (stock_data (after (remove_item (VStr name) qty) w))
    = dict_get k (stock_data w).
Proof.
  intros Hne. split.
  - now apply add_item_other_keys.
  - now apply remove_item_other_keys.
Qed.

Lemma other_items_untouched_witness :
  "banana" <> "apple" /\
  dict_get "banana"
    (stock_data (after (add_item (VStr "apple") (VInt 4) (VInt 5)) stocked))
    = dict_get "banana" (stock_data stocked) /\
  dict_get "banana"
    (stock_data (after (remove_item (VStr "apple") (VInt 40)) stocked))
    = dict_get "banana" (stock_data stocked).
Proof.
  assert (Hne : "banana" <> "apple") by discriminate.
  split; [exact Hne|].
  split.
  - exact (proj1 (other_items_untouched stocked "apple" "banana"
                    (VInt 4) (VInt 5) Hne)).
  - exact (proj2 (other_items_untouched stocked "apple" "banana"
                    (VInt 40) VNone Hne)).
Defined.

(** X2: [add_item] never removes or reorders a key: after the call the keys
    are the same list as before, or that list with a new item appended at
    the end. *)
Theorem add_item_keeps_key_order (w : world) (item qty logs : pyval) :
  keys (stock_data (after (add_item item qty logs) w)) = keys (stock_data w)
  \/
  exists name,
    item = VStr name /\
    dict_get name (stock_data w) = None /\
    keys (stock_data (after (add_item item qty logs) w))
      = (keys (stock_data w) ++ [name])%list.
Proof.
  destruct (add_item_stock w item qty logs) as [-> | [name [sum [-> ->]]]];
    [now left|].
  rewrite keys_dict_set. unfold dict_mem.
  destruct (dict_get name (stock_data w)) eqn:Hget; [now left|].
  right. exists name. repeat split; assumption.
Qed.

(** X3: [remove_item] never adds or reorders a key: after the call the keys
    are the same list as before, or that list with the one occurrence of
    the item taken out. *)
Theorem remove_item_keeps_key_order (w : world) (item qty : pyval) :
  keys (stock_data (after (remove_item item qty) w)) = keys (stock_data w)
  \/
  exists name l1 l2,
    item = VStr name /\
    keys (stock_data w) = (l1 ++ name :: l2)%list /\
    keys (stock_data (after (remove_item item qty) w)) = (l1 ++ l2)%list.
Proof.
  unfold after.
  destruct (remove_item_cases w item qty)
    as [[msg ->] | [-> | [[name [q [-> [_ [Hmem ->]]]]] | [name [-> [_ ->]]]]]];
    simpl; try (now left).
  - left. rewrite keys_dict_set. now rewrite Hmem.
  - destruct (keys_dict_del (stock_data w) name)
      as [-> | [l1 [l2 [H1 H2]]]]; [now left|].
    right. now exists name, l1, l2.
Qed.

(** ** More on [remove_item] *)





(** X6: [remove_item] writes at most one log record and never one of level
    ERROR: the [except KeyError] handler around the update cannot be
    reached, because the update runs only for a key that is present. *)
Theorem remove_item_never_logs_error (w : world) (item qty : pyval) :
  log (after (remove_item item qty) w) = log w \/
  exists lv msg,
    lv <> ERROR /\
    log (after (remove_item item qty) w) = (log w ++ [(lv, msg)])%list.
Proof.
  unfold after.
  destruct (remove_item_cases w item qty)
    as [[msg ->] | [-> | [[name [q [_ [_ [_ ->]]]]] | [name [_ [_ ->]]]]]];
    simpl.
  - right. exists WARNING, msg. split; [discriminate | reflexivity].
  - now left.
  - now left.
  - right. eexists INFO, _. split; [discriminate | reflexivity].
Qed.

(** ** How [add_item] and [remove_item] compose *)

Lemma dict_del_set_fresh {A} (d : dict A) (k : string) (v : A) :
  dict_get k d = None -> dict_del k (dict_set k v d) = d.
Proof.
  induction d as [|[k' v'] d IH]; simpl.
  - now rewrite String.eqb_refl.
  - destruct (String.eqb_spec k k') as [->|Hne]; [discriminate|].
    intros H. simpl.
    destruct (String.eqb_spec k k'); [contradiction|]. now rewrite IH.
Qed.

Lemma dict_set_set {A} (d : dict A) (k : string) (v v' : A) :
  dict_set k v (dict_set k v' d) = dict_set k v d.
Proof.
  induction d as [|[k0 v0] d IH]; simpl.
  - now rewrite String.eqb_refl.
  - destruct (String.eqb_spec k k0) as [->|Hne]; simpl.
    + now rewrite String.eqb_refl.
    + destruct (String.eqb_spec k k0); [contradiction|]. now rewrite IH.
Qed.

Lemma dict_set_same {A} (d : dict A) (k : string) (v : A) :
  dict_get k d = Some v -> dict_set k v d = d.
Proof.
  induction d as [|[k0 v0] d IH]; simpl; [discriminate|].
  destruct (String.eqb_spec k k0) as [->|Hne].
  - now intros [= ->].
  - intros H. now rewrite IH.
Qed.

(** X7: adding an integer quantity of an item and then removing the same
    quantity gives back the inventory as it was, keys and order included,
    when the item was absent or had a positive integer quantity. *)
Theorem add_then_remove_restores
    (w : world) (name : string) (qty logs : pyval) (n : Z) :
  as_num qty = Some (NInt n) ->
  (dict_get name (stock_data w) = None \/
   exists x, 0 < x /\ dict_get name (stock_data w) = Some (NInt x)) ->
  stock_data (after (remove_item (VStr name) qty)
                (after (add_item (VStr name) qty logs) w))
    = stock_data w.
Proof.
  intros Hnum Hcur.
  assert (Hadd : exists x,
             (x = 0 /\ dict_get name (stock_data w) = None \/
              0 < x /\ dict_get name (stock_data w) = Some (NInt x)) /\
             stock_data (after (add_item (VStr name) qty logs) w)
               = dict_set name (NInt (x + n)) (stock_data w)).
  { destruct Hcur as [Hnone | [x [Hx Hsome]]].
    - exists 0. split; [now left|].
      apply add_item_valid_stock with (q := NInt n); [exact Hnum|].
      now rewrite Hnone.
    - exists x. split; [now right|].
      apply add_item_valid_stock with (q := NInt n); [exact Hnum|].
      now rewrite Hsome. }
  destruct Hadd as [x [Hx Hstock]].
  destruct (remove_item_present (after (add_item (VStr name) qty logs) w)
              name qty n (NInt (x + n)) (NInt (x + n - n)))
    as [_ ->].
  - now apply py_int_of_int.
  - rewrite Hstock. apply dict_get_set_same.
  - reflexivity.
  - rewrite Hstock, num_leb_int.
    replace (x + n - n) with x by lia.
    destruct Hx as [[-> Hnone] | [Hpos Hsome]].
    + simpl. now apply dict_del_set_fresh.
    + destruct (x <=? 0) eqn:Hle; [apply Z.leb_le in Hle; lia|].
      rewrite dict_set_set. now apply dict_set_same.
Qed.

Lemma add_then_remove_restores_witness :
  as_num (VInt 5) = Some (NInt 5) /\
  (dict_get "x" (stock_data stocked) = None \/
   exists x, 0 < x /\ dict_get "x" (stock_data stocked) = Some (NInt x)) /\
  stock_data (after (remove_item (VStr "x") (VInt 5))
                (after (add_item (VStr "x") (VInt 5) VNone) stocked))
    = stock_data stocked.
Proof.
  assert (Hnum : as_num (VInt 5) = Some (NInt 5)) by reflexivity.
  assert (Hcur : dict_get "x" (stock_data stocked) = None \/
                 exists x, 0 < x /\
                           dict_get "x" (stock_data stocked) = Some (NInt x))
    by (left; reflexivity).
  split; [exact Hnum|]. split; [exact Hcur|].
  exact (add_then_remove_restores stocked "x" (VInt 5) VNone 5 Hnum Hcur).
Defined.

(** X8: two [add_item] calls for one item with integer quantities leave the
    same inventory as a single call with their sum, when the item was
    absent or had an integer quantity. *)
Theorem add_item_accumulates
    (w : world) (name : string) (q1 q2 logs1 logs2 logs : pyval) (a b : Z) :
  as_num q1 = Some (NInt a) ->
  as_num q2 = Some (NInt b) ->
  (dict_get name (stock_data w) = None \/
   exists x, dict_get name (stock_data w) = Some (NInt x)) ->
  stock_data (after (add_item (VStr name) q2 logs2)
                (after (add_item (VStr name) q1 logs1) w))
    = stock_data (after (add_item (VStr name) (VInt (a + b)) logs) w).
Proof.
  intros Ha Hb Hcur.
  assert (Hx : exists x,
             match dict_get name (stock_data w) with
             | Some cur => cur
             | None => NInt 0
             end = NInt x).
  { destruct Hcur as [-> | [x ->]]; [now exists 0 | now exists x]. }
  destruct Hx as [x Hx].
  assert (H1 : stock_data (after (add_item (VStr name) q1 logs1) w)
               = dict_set name (NInt (x + a)) (stock_data w)).
  { apply add_item_valid_stock with (q := NInt a); [exact Ha|].
    now rewrite Hx. }
  rewrite (add_item_valid_stock _ name q2 logs2 (NInt b) (NInt (x + a + b)))
    by (try rewrite H1, dict_get_set_same; auto).
  rewrite H1, dict_set_set.
  rewrite (add_item_valid_stock w name (VInt (a + b)) logs
             (NInt (a + b)) (NInt (x + (a + b))))
    by (try rewrite Hx; auto).
  now rewrite Z.add_assoc.
Qed.

Lemma add_item_accumulates_witness :
  as_num (VInt 4) = Some (NInt 4) /\
  as_num (VBool true) = Some (NInt 1) /\
  (dict_get "apple" (stock_data stocked) = None \/
   exists x, dict_get "apple" (stock_data stocked) = Some (NInt x)) /\
  stock_data (after (add_item (VStr "apple") (VBool true) VNone)
                (after (add_item (VStr "apple") (VInt 4) VNone) stocked))
    = stock_data (after (add_item (VStr "apple") (VInt (4 + 1)) VNone)
                    stocked).
Proof.
  assert (Hcur : dict_get "apple" (stock_data stocked) = None \/
                 exists x, dict_get "apple" (stock_data stocked)
                           = Some (NInt x))
    by (right; exists 10; reflexivity).
  split; [reflexivity|]. split; [reflexivity|]. split; [exact Hcur|].
  exact (add_item_accumulates stocked "apple" (VInt 4) (VBool true)
           VNone VNone VNone 4 1 eq_refl eq_refl Hcur).
Defined.

(** ** More on [load_data] *)

(** X9: how [load_data] degrades.  A path on which [exists()] is false
    empties the inventory and the logger is called at level INFO; a file
    that cannot be opened or is not JSON empties it, at level ERROR; a
    document that is not an object (and holds no integer of more than 4300
    digits) empties it, at level WARNING.  In each case the call returns
    normally. *)
Theorem load_data_degrades_to_empty (w : world) (p : string) :
  (files w p = None ->
   outcome (load_data (VStr p)) w = Ret tt /\
   stock_data (after (load_data (VStr p)) w) = [] /\
   log (after (load_data (VStr p)) w)
     = (log w ++
        [(INFO,
          "load_data: file %r not found. Starting with empty inventory.")])%list)
  /\
  (files w p = Some Unreadable \/ files w p = Some Malformed ->
   outcome (load_data (VStr p)) w = Ret tt /\
   stock_data (after (load_data (VStr p)) w) = [] /\
   log (after (load_data (VStr p)) w)
     = (log w ++ [(ERROR, "load_data: failed to load %r: %s")])%list) /\
  (forall v, files w p = Some (Document v) -> oversized v = false ->
   (forall d, v <> VDict d) ->
   outcome (load_data (VStr p)) w = Ret tt /\
   stock_data (after (load_data (VStr p)) w) = [] /\
   log (after (load_data (VStr p)) w)
     = (log w ++
        [(WARNING,
          "load_data: data in %r is not a dict; starting with empty inventory.")])%list).
Proof.
  unfold outcome, after. rewrite load_data_unfolds. split; [|split].
  - intros ->. repeat split.
  - intros [-> | ->]; repeat split.
  - intros v -> -> Hv. destruct v; try (now destruct (Hv d)); repeat split.
Qed.

Lemma load_data_degrades_to_empty_witness :
  files stocked "inventory.json" = None /\
  (files (set_file stocked "inventory.json" Malformed) "inventory.json"
     = Some Unreadable \/
   files (set_file stocked "inventory.json" Malformed) "inventory.json"
     = Some Malformed) /\
  files (set_file stocked "inventory.json" (Document (VList [VInt 1])))
        "inventory.json" = Some (Document (VList [VInt 1])) /\
  oversized (VList [VInt 1]) = false /\
  stock_data (after (load_data default_file) stocked) = [] /\
  stock_data (after (load_data default_file)
                (set_file stocked "inventory.json" Malformed)) = [] /\
  stock_data (after (load_data default_file)
                (set_file stocked "inventory.json"
                   (Document (VList [VInt 1])))) = [].
Proof.
  assert (H2 : files (set_file stocked "inventory.json" Malformed)
                     "inventory.json" = Some Unreadable \/
               files (set_file stocked "inventory.json" Malformed)
                     "inventory.json" = Some Malformed)
    by (right; reflexivity).
  assert (H3 : forall d, VList [VInt 1] <> VDict d) by discriminate.
  split; [reflexivity|]. split; [exact H2|]. split; [reflexivity|].
  split; [reflexivity|].
  destruct (load_data_degrades_to_empty stocked "inventory.json")
    as [Hmissing _].
  destruct (load_data_degrades_to_empty
              (set_file stocked "inventory.json" Malformed) "inventory.json")
    as [_ [Hbad _]].
  destruct (load_data_degrades_to_empty
              (set_file stocked "inventory.json" (Document (VList [VInt 1])))
              "inventory.json")
    as [_ [_ Hlist]].
  split; [exact (proj1 (proj2 (Hmissing eq_refl)))|].
  split; [exact (proj1 (proj2 (Hbad H2)))|].
  exact (proj1 (proj2 (Hlist (VList [VInt 1]) eq_refl eq_refl H3))).
Defined.

(** One turn of the loop of [load_data], by what [int] gives. *)
Lemma load_entry_cases (w : world) (k : string) (v : pyval) :
  load_entry (k, v) w
    = match py_int v with
      | Ret n => (Ret tt, set_stock w (dict_set k (NInt n) (stock_data w)))
      | Raise e =>
          if catches [TypeError; ValueError] e
          then (Ret tt,
                add_log w
                  (WARNING,
                   "load_data: invalid quantity for %r -> %r, skipping"))
          else (Raise e, w)
      end.
Proof.
  unfold load_entry. unfold_stmt. simpl.
  destruct (py_int v) as [n|e]; [reflexivity|]. now destruct e.
Qed.

(** The loop of [load_data] reads and writes the inventory only: from two
    worlds with the same inventory it ends with the same outcome and the
    same inventory; and it leaves the files alone. *)
Lemma load_loop_stock_only (d : list (string * pyval)) (w1 w2 : world) :
  stock_data w1 = stock_data w2 ->
  outcome (for_each d load_entry) w1 = outcome (for_each d load_entry) w2 /\
  stock_data (after (for_each d load_entry) w1)
    = stock_data (after (for_each d load_entry) w2).
Proof.
  revert w1 w2. induction d as [|[k v] d IH]; intros w1 w2 Hs; simpl.
  - now split.
  - unfold outcome, after, bind. rewrite !load_entry_cases.
    destruct (py_int v) as [z|e].
    + apply IH. simpl. now rewrite Hs.
    + destruct (catches [TypeError; ValueError] e); [|now split].
      apply IH. exact Hs.
Qed.

Lemma load_data_same_file (w1 w2 : world) (p : string) :
  files w1 p = files w2 p ->
  escapes (files w1 p) = false ->
  outcome (load_data (VStr p)) w1 = outcome (load_data (VStr p)) w2 /\
  stock_data (after (load_data (VStr p)) w1)
    = stock_data (after (load_data (VStr p)) w2).
Proof.
  intros Hsame Hesc. unfold outcome, after.
  rewrite !load_data_unfolds, <- Hsame.
  destruct (files w1 p) as [f|]; [|now split].
  destruct f as [| | |v| |]; try discriminate; try (now split).
  simpl in Hesc. rewrite Hesc.
  destruct v; try (now split).
  now apply load_loop_stock_only.
Qed.

(** X10: [load_data] replaces the inventory, it does not merge: when it
    gets as far as clearing the inventory ([exists()] and the read raise
    nothing that [load_data] does not handle), its outcome and the
    inventory after the call depend on what the path leads to alone, not
    on what the inventory, the log or the other files were. *)
Theorem load_data_determined_by_file (w1 w2 : world) (p : string) :
  files w1 p = files w2 p ->
  escapes (files w1 p) = false ->
  outcome (load_data (VStr p)) w1 = outcome (load_data (VStr p)) w2 /\
  stock_data (after (load_data (VStr p)) w1)
    = stock_data (after (load_data (VStr p)) w2).
Proof. apply load_data_same_file. Qed.

Lemma load_data_determined_by_file_witness :
  files (set_file stocked "inventory.json"
           (Document (VDict [("pear", VInt 4)]))) "inventory.json"
    = files (set_file empty_world "inventory.json"
               (Document (VDict [("pear", VInt 4)]))) "inventory.json" /\
  escapes (files (set_file stocked "inventory.json"
                    (Document (VDict [("pear", VInt 4)]))) "inventory.json")
    = false /\
  stock_data (after (load_data (VStr "inventory.json"))
                (set_file stocked "inventory.json"
                   (Document (VDict [("pear", VInt 4)]))))
    = stock_data (after (load_data (VStr "inventory.json"))
                    (set_file empty_world "inventory.json"
                       (Document (VDict [("pear", VInt 4)])))).
Proof.
  split; [reflexivity|]. split; [reflexivity|].
  exact (proj2 (load_data_determined_by_file
                  (set_file stocked "inventory.json"
                     (Document (VDict [("pear", VInt 4)])))
                  (set_file empty_world "inventory.json"
                     (Document (VDict [("pear", VInt 4)])))
                  "inventory.json" eq_refl eq_refl)).
Defined.




(** ** Integers in, integers out *)

Lemma int_valued_set (d : dict num) (k : string) (z : Z) :
  int_valued d -> int_valued (dict_set k (NInt z) d).
Proof. apply Forall_dict_set. reflexivity. Qed.

Lemma int_valued_get (d : dict num) (k : string) (q : num) :
  int_valued d -> dict_get k d = Some q -> exists z, q = NInt z.
Proof.
  intros Hd Hget. apply dict_get_In in Hget.
  unfold int_valued in Hd. rewrite Forall_forall in Hd.
  specialize (Hd (k, q) Hget). destruct q as [z|f]; [now exists z|].
  discriminate.
Qed.

Lemma load_loop_int_valued (d : list (string * pyval)) (w : world) :
  int_valued (stock_data w) ->
  int_valued (stock_data (after (for_each d load_entry) w)).
Proof.
  revert w. induction d as [|[k v] d IH]; intros w Hinv; simpl.
  - exact Hinv.
  - unfold after, bind. rewrite load_entry_cases.
    destruct (py_int v) as [z|e].
    + apply IH. simpl. now apply int_valued_set.
    + destruct (catches [TypeError; ValueError] e); [|exact Hinv].
      apply IH. exact Hinv.
Qed.

Lemma load_data_int_valued (w : world) (file : pyval) :
  int_valued (stock_data w) ->
  int_valued (stock_data (after (load_data file) w)).
Proof.
  intros Hinv.
  destruct (load_data_stock w file) as [-> | [-> | [p [d [-> [Hf E]]]]]].
  - exact Hinv.
  - constructor.
  - unfold after. rewrite E. apply (load_loop_int_valued d). constructor.
Qed.


Lemma add_item_int_valued (w : world) (item qty logs : pyval) :
  brings_no_float (AddItem item qty logs) = true ->
  int_valued (stock_data w) ->
  int_valued (stock_data (after (add_item item qty logs) w)).
Proof.
  intros Hqty Hinv.
  destruct (isinstance_str item) eqn:Hstr.
  2:{ now rewrite (proj2 (invalid_add_item_unfolds item qty logs w
                             (or_introl Hstr))). }
  destruct (as_num qty) as [q|] eqn:Hnum.
  2:{ assert (Hq : isinstance_int_float qty = false)
        by (destruct qty; simpl in *; congruence).
      now rewrite (proj2 (invalid_add_item_unfolds item qty logs w
                             (or_intror Hq))). }
  destruct item as [| | | |name| |]; try discriminate.
  assert (Hz : exists z, q = NInt z).
  { destruct qty; simpl in *; try discriminate;
      injection Hnum as <-; eauto. }
  destruct Hz as [z ->].
  destruct (dict_get name (stock_data w)) as [cur|] eqn:Hcur.
  - destruct (int_valued_get _ _ _ Hinv Hcur) as [x ->].
    rewrite (add_item_valid_stock w name qty logs (NInt z) (NInt (x + z)))
      by (try rewrite Hcur; auto).
    now apply int_valued_set.
  - rewrite (add_item_valid_stock w name qty logs (NInt z) (NInt (0 + z)))
      by (try rewrite Hcur; auto).
    now apply int_valued_set.
Qed.

Lemma remove_item_int_valued (w : world) (item qty : pyval) :
  int_valued (stock_data w) ->
  int_valued (stock_data (after (remove_item item qty) w)).
Proof.
  intros Hinv.
  destruct item as [| | | |name| |];
    try (unfold remove_item; unfold_stmt; exact Hinv).
  destruct (py_int qty) as [n|e] eqn:Hint.
  - destruct (dict_get name (stock_data w)) as [cur|] eqn:Hcur.
    + destruct (int_valued_get _ _ _ Hinv Hcur) as [x ->].
      destruct (remove_item_present w name qty n (NInt x) (NInt (x - n))
                  Hint Hcur eq_refl) as [_ ->].
      destruct (num_leb (NInt (x - n)) 0).
      * now apply Forall_dict_del.
      * now apply int_valued_set.
    + unfold remove_item. unfold_stmt. rewrite Hint. simpl.
      unfold dict_mem. rewrite Hcur. exact Hinv.
  - unfold remove_item. unfold_stmt. rewrite Hint.
    destruct e; exact Hinv.
Qed.

(** X14: the inventory holds integers as long as no float is added: from an
    inventory of integers, any sequence of [add_item], [remove_item] and
    [load_data] calls in which no [add_item] is given a float [qty] ends in
    an inventory of integers. *)
Theorem integer_inventory_stays_integer (cs : list call) (w : world) :
  int_valued (stock_data w) ->
  forallb brings_no_float cs = true ->
  int_valued (stock_data (exec_all cs w)).
Proof.
  revert w. induction cs as [|c cs IH]; intros w Hinv Hcs; simpl.
  - exact Hinv.
  - simpl in Hcs. apply andb_prop in Hcs as [Hc Hcs].
    apply IH; [|exact Hcs].
    destruct c as [item qty logs | item qty | file]; simpl.
    + now apply add_item_int_valued.
    + now apply remove_item_int_valued.
    + now apply load_data_int_valued.
Qed.

Lemma integer_inventory_stays_integer_witness :
  int_valued (stock_data stocked) /\
  forallb brings_no_float
    [AddItem (VStr "apple") (VInt (-20)) VNone;
     AddItem (VStr "pear") (VBool true) (VInt 5);
     RemoveItem (VStr "banana") (VStr "2");
     LoadData (VStr "inventory.json");
     AddItem (VStr "fig") (VStr "2.5") VNone] = true /\
  int_valued
    (stock_data
       (exec_all
          [AddItem (VStr "apple") (VInt (-20)) VNone;
           AddItem (VStr "pear") (VBool true) (VInt 5);
           RemoveItem (VStr "banana") (VStr "2");
           LoadData (VStr "inventory.json");
           AddItem (VStr "fig") (VStr "2.5") VNone]
          stocked)).
Proof.
  assert (Hinv : int_valued (stock_data stocked))
    by (repeat constructor).
  split; [exact Hinv|]. split; [reflexivity|].
  apply integer_inventory_stays_integer; [exact Hinv | reflexivity].
Defined.

(** ** [save_data] and [print_data] *)

Lemma save_data_fails (w : world) (p : string) :
  writable w p = Refused OSError ->
  save_data (VStr p) w
    = (Ret tt,
       add_log w
         (ERROR, "save_data: failed to save inventory data to %r: %s")).
Proof.
  intros Hw. unfold save_data. unfold_stmt. simpl. now rewrite Hw.
Qed.

Lemma printable_not_oversized (d : dict num) :
  printable d = true ->
  existsb (fun kv => oversized_num (snd kv)) d = false.
Proof. unfold printable. now intros H%negb_true_iff. Qed.

(** X15: [save_data] on a regular file, with names that UTF-8 can encode
    and no integer of more than 4300 digits in stock, returns normally,
    leaves the document of the inventory in the file and calls the logger
    at level INFO; when opening the file fails with [OSError] it returns
    normally as well, the path leads to what it led to before, and the
    logger is called at level ERROR. *)
Theorem save_data_spec (w : world) (p : string) :
  (writable w p = Regular ->
   encodable_names (stock_data w) = true ->
   printable (stock_data w) = true ->
   outcome (save_data (VStr p)) w = Ret tt /\
   files (after (save_data (VStr p)) w) p
     = Some (Document (document_of (stock_data w))) /\
   log (after (save_data (VStr p)) w)
     = (log w ++ [(INFO, "save_data: inventory data saved to %r")])%list) /\
  (writable w p = Refused OSError ->
   outcome (save_data (VStr p)) w = Ret tt /\
   files (after (save_data (VStr p)) w) p = files w p /\
   log (after (save_data (VStr p)) w)
     = (log w ++
        [(ERROR, "save_data: failed to save inventory data to %r: %s")])%list).
Proof.
  unfold outcome, after. split.
  - intros Hw Hn Hp.
    rewrite (save_data_writes w p Hw
               (dump_error_none _ Hn (printable_not_oversized _ Hp))).
    simpl. rewrite String.eqb_refl. repeat split.
  - intros Hw. rewrite (save_data_fails w p Hw). repeat split.
Qed.

Lemma save_data_spec_witness :
  writable stocked "inventory.json" = Regular /\
  encodable_names (stock_data stocked) = true /\
  printable (stock_data stocked) = true /\
  writable (initial no_files none_writable) "inventory.json"
    = Refused OSError /\
  files (after (save_data default_file) stocked) "inventory.json"
    = Some (Document (VDict [("apple", VInt 10); ("banana", VInt 3)])) /\
  files (after (save_data default_file) (initial no_files none_writable))
        "inventory.json" = None.
Proof.
  split; [reflexivity|]. split; [reflexivity|]. split; [reflexivity|].
  split; [reflexivity|].
  destruct (save_data_spec stocked "inventory.json") as [Hok _].
  destruct (save_data_spec (initial no_files none_writable) "inventory.json")
    as [_ Hfail].
  split.
  - exact (proj1 (proj2 (Hok eq_refl eq_refl eq_refl))).
  - exact (proj1 (proj2 (Hfail eq_refl))).
Defined.

Lemma int_valued_finite (d : dict num) :
  int_valued d -> Forall (fun kv => finite (snd kv) = true) d.
Proof.
  unfold int_valued. apply Forall_impl. intros [k q]. simpl.
  destruct q; [reflexivity | discriminate].
Qed.

Lemma int_valued_coerced (d : dict num) : int_valued d -> coerced d = d.
Proof.
  intros Hd. apply coerced_int_valued. revert Hd. apply Forall_impl.
  intros [k q]. simpl. destruct q as [z|f]; [now exists z | discriminate].
Qed.

Lemma load_loop_writable (d : list (string * pyval)) (w : world) :
  writable (after (for_each d load_entry) w) = writable w.
Proof.
  revert w. induction d as [|[k v] d IH]; intros w; simpl.
  - reflexivity.
  - unfold after, bind. rewrite load_entry_cases.
    destruct (py_int v) as [z|e].
    + unfold after in IH. now rewrite IH.
    + destruct (catches [TypeError; ValueError] e); [|reflexivity].
      unfold after in IH. now rewrite IH.
Qed.

Lemma printable_document (d : dict num) :
  printable d = true -> oversized (document_of d) = false.
Proof.
  intros H%printable_not_oversized. unfold document_of.
  induction d as [|[k q] d IH]; simpl in *; [reflexivity|].
  apply orb_false_elim in H as [Hq H]. specialize (IH H). simpl in IH.
  rewrite IH. destruct q as [z|f]; simpl in *; now rewrite ?Hq.
Qed.

(** X16: the round trip seen from the file: when a regular file holds the
    document of a dictionary of integers of at most 4300 digits, with
    distinct names that UTF-8 can encode, [load_data(path)] makes the
    inventory that dictionary and a following [save_data(path)] leaves that
    document in the file. *)
Theorem load_then_save_keeps_file (w : world) (p : string) (d : dict num) :
  int_valued d ->
  dict_wf d ->
  encodable_names d = true ->
  printable d = true ->
  files w p = Some (Document (document_of d)) ->
  writable w p = Regular ->
  stock_data (after (load_data (VStr p)) w) = d /\
  files (after (save_data (VStr p)) (after (load_data (VStr p)) w)) p
    = Some (Document (document_of d)).
Proof.
  intros Hint Hwf Hn Hp Hf Hw.
  assert (Hload : load_data (VStr p) w
                  = for_each (map (fun kv => (fst kv, pyval_of_num (snd kv))) d)
                             load_entry (set_stock w []))
    by (apply load_data_document; [exact Hf | now apply printable_document]).
  destruct (load_loop_coerces d (set_stock w []) (int_valued_finite d Hint)
              Hwf (fun k _ => eq_refl)) as [_ Hstock].
  simpl in Hstock. rewrite (int_valued_coerced d Hint) in Hstock.
  assert (Hwr : writable (after (load_data (VStr p)) w) p = Regular).
  { unfold after. rewrite Hload.
    exact (eq_trans (f_equal (fun f => f p)
                       (load_loop_writable _ (set_stock w []))) Hw). }
  assert (Hs : stock_data (after (load_data (VStr p)) w) = d).
  { unfold after in *. now rewrite Hload. }
  split; [exact Hs|].
  unfold after at 1.
  rewrite (save_data_writes _ p Hwr)
    by (rewrite Hs; apply dump_error_none;
        [exact Hn | now apply printable_not_oversized]).
  simpl. now rewrite String.eqb_refl, Hs.
Qed.

Lemma load_then_save_keeps_file_witness :
  int_valued [("pear", NInt 4); ("fig", NInt (-2))] /\
  dict_wf [("pear", NInt 4); ("fig", NInt (-2))] /\
  encodable_names [("pear", NInt 4); ("fig", NInt (-2))] = true /\
  printable [("pear", NInt 4); ("fig", NInt (-2))] = true /\
  files (set_file stocked "inventory.json"
           (Document (document_of [("pear", NInt 4); ("fig", NInt (-2))])))
        "inventory.json"
    = Some (Document (document_of [("pear", NInt 4); ("fig", NInt (-2))])) /\
  writable (set_file stocked "inventory.json"
              (Document (document_of [("pear", NInt 4); ("fig", NInt (-2))])))
           "inventory.json" = Regular /\
  stock_data
    (after (load_data (VStr "inventory.json"))
       (set_file stocked "inventory.json"
          (Document (document_of [("pear", NInt 4); ("fig", NInt (-2))]))))
    = [("pear", NInt 4); ("fig", NInt (-2))].
Proof.
  assert (Hint : int_valued [("pear", NInt 4); ("fig", NInt (-2))])
    by (repeat constructor).
  assert (Hwf : dict_wf [("pear", NInt 4); ("fig", NInt (-2))]).
  { repeat constructor; simpl; intuition discriminate. }
  split; [exact Hint|]. split; [exact Hwf|].
  split; [reflexivity|]. split; [reflexivity|].
  split; [reflexivity|]. split; [reflexivity|].
  exact (proj1 (load_then_save_keeps_file
                  (set_file stocked "inventory.json"
                     (Document (document_of
                                  [("pear", NInt 4); ("fig", NInt (-2))])))
                  "inventory.json" [("pear", NInt 4); ("fig", NInt (-2))]
                  Hint Hwf eq_refl eq_refl eq_refl eq_refl)).
Defined.

Lemma well_formed_ascii (l : list ascii) :
  forallb (fun c => (nat_of_ascii c <? 128)%nat) l = true ->
  well_formed (map nat_of_ascii l) = true.
Proof.
  induction l as [|c l IH]; [reflexivity|].
  intros H. apply andb_prop in H as [Hc Hl].
  change (well_formed (map nat_of_ascii (c :: l)))
    with (well_formed (nat_of_ascii c :: map nat_of_ascii l)).
  specialize (IH Hl). revert Hc IH.
  generalize (nat_of_ascii c) (map nat_of_ascii l). intros a m Ha Hm.
  unfold well_formed; fold well_formed. now rewrite Ha.
Qed.

Lemma is_ascii_encodable (s : string) : is_ascii s = true -> encodable s = true.
Proof. apply well_formed_ascii. Qed.

Lemma print_items_report (l : dict num) (w : world) :
  ascii_names l = true ->
  printable l = true ->
  for_each l (fun kv => print (PItem (fst kv) (snd kv))) w
    = (Ret tt,
       mkWorld (stock_data w) (files w) (writable w) (log w)
         (stdout w ++ map (fun kv => PItem (fst kv) (snd kv)) l)).
Proof.
  unfold ascii_names, printable.
  revert w. induction l as [|[k q] l IH]; intros w Hn Hp; simpl.
  - unfold ret. rewrite app_nil_r. now destruct w.
  - simpl in Hn, Hp. apply andb_prop in Hn as [Hk Hn].
    apply negb_true_iff, orb_false_elim in Hp as [Hq Hp].
    unfold bind, print at 1. rewrite Hq, (is_ascii_encodable k Hk).
    rewrite IH by (try assumption; now apply negb_true_iff).
    simpl. now rewrite <- app_assoc.
Qed.

Lemma print_data_unfolds (w : world) :
  ascii_names (stock_data w) = true ->
  printable (stock_data w) = true ->
  print_data w
    = (Ret tt,
       mkWorld (stock_data w) (files w) (writable w)
         (log w ++ [(INFO, "print_data: inventory report printed.")])
         (stdout w ++
          PText report_header
            :: map (fun kv => PItem (fst kv) (snd kv)) (stock_data w))).
Proof.
  intros Hn Hp. unfold print_data, bind, print at 1, stock_items.
  rewrite print_items_report by assumption.
  unfold logger, add_log. simpl. now rewrite <- app_assoc.
Qed.

(** X17: when the names in stock are ASCII and no quantity is an integer of
    more than 4300 digits, [print_data] returns normally; it appends to
    standard output the header and then one line for each item, in the
    dictionary's order, and calls the logger once, at level INFO. *)
Theorem print_data_report (w : world) :
  ascii_names (stock_data w) = true ->
  printable (stock_data w) = true ->
  outcome print_data w = Ret tt /\
  stdout (after print_data w)
    = (stdout w ++
       PText report_header
         :: map (fun kv => PItem (fst kv) (snd kv)) (stock_data w))%list /\
  log (after print_data w)
    = (log w ++ [(INFO, "print_data: inventory report printed.")])%list.
Proof.
  intros Hn Hp. unfold outcome, after.
  rewrite print_data_unfolds by assumption. repeat split.
Qed.

Lemma print_data_report_witness :
  ascii_names (stock_data stocked) = true /\
  printable (stock_data stocked) = true /\
  stdout (after print_data stocked)
    = [PText report_header; PItem "apple" (NInt 10); PItem "banana" (NInt 3)].
Proof.
  split; [reflexivity|]. split; [reflexivity|].
  exact (proj1 (proj2 (print_data_report stocked eq_refl eq_refl))).
Defined.

(** ** More on [check_low_items] *)





(** ** [main] on any file system *)

Lemma bind_ret {A B} (m : M A) (k : A -> M B) (w w' : world) (a : A) :
  m w = (Ret a, w') -> bind m k w = k a w'.
Proof. intros H. unfold bind. now rewrite H. Qed.

(** The world of [main] when it reaches [save_data]: 7 apples and 3 bananas
    in stock, the files as they were at the start. *)
Lemma main_before_save (fs : string -> option file) (wr : string -> access) :
  main (initial fs wr)
    = (save_data default_file ;; load_data default_file ;; print_data)
        (mkWorld [("apple", NInt 7); ("banana", NInt 3)] fs wr
           [(INFO, "%s: Added %s of %s to inventory list successfully");
            (INFO, "%s: Added %s of %s to inventory list successfully");
            (WARNING,
             "Invalid item or quantity type provided: item=%r qty=%r");
            (WARNING, "Attempted to remove non-existent item: %s");
            (INFO, "check_low_items: items below %d checked")]
           [PValue "Apple stock:" (VInt 7);
            PValue "Low items:" (VList [VStr "banana"])]).
Proof.
  unfold main.
  do 9 (erewrite bind_ret by (vm_compute; reflexivity)).
  reflexivity.
Qed.

(** X19: on every file system on which "inventory.json" is a regular file
    (it can be opened for writing and what is written is what a later read
    returns), [main] returns normally, ends with 7 apples and 3 bananas in
    stock and in the file, and prints the apple stock, the low items and
    the report. *)
Theorem main_with_writable_file
    (fs : string -> option file) (wr : string -> access) :
  wr "inventory.json" = Regular ->
  outcome main (initial fs wr) = Ret tt /\
  stock_data (after main (initial fs wr))
    = [("apple", NInt 7); ("banana", NInt 3)] /\
  files (after main (initial fs wr)) "inventory.json"
    = Some (Document (VDict [("apple", VInt 7); ("banana", VInt 3)])) /\
  stdout (after main (initial fs wr))
    = [PValue "Apple stock:" (VInt 7);
       PValue "Low items:" (VList [VStr "banana"]);
       PText report_header;
       PItem "apple" (NInt 7); PItem "banana" (NInt 3)].
Proof.
  intros Hwr. unfold outcome, after. rewrite main_before_save.
  erewrite bind_ret
    by (unfold default_file; apply save_data_writes;
        [exact Hwr | reflexivity]).
  erewrite bind_ret
    by (unfold default_file;
        erewrite load_data_document by reflexivity;
        simpl; reflexivity).
  unfold print_data.
  do 3 (erewrite bind_ret by (simpl; reflexivity)).
  simpl. repeat split.
Qed.

Lemma main_with_writable_file_witness :
  all_writable "inventory.json" = Regular /\
  outcome main (initial (one_file "notes.txt" Malformed) all_writable)
    = Ret tt /\
  stock_data (after main (initial (one_file "notes.txt" Malformed)
                            all_writable))
    = [("apple", NInt 7); ("banana", NInt 3)].
Proof.
  split; [reflexivity|].
  destruct (main_with_writable_file (one_file "notes.txt" Malformed)
              all_writable eq_refl) as [Hout [Hstock _]].
  split; [exact Hout | exact Hstock].
Defined.

(** X20: when "inventory.json" does not exist and opening it for writing
    fails with [OSError], [main] still returns normally, but it does not
    keep what it has in memory: the failed save is only logged, the reload
    finds no file, and [main] ends with an empty inventory and a report
    that lists nothing. *)
Theorem main_with_failed_save
    (fs : string -> option file) (wr : string -> access) :
  wr "inventory.json" = Refused OSError ->
  fs "inventory.json" = None ->
  outcome main (initial fs wr) = Ret tt /\
  stock_data (after main (initial fs wr)) = [] /\
  In (ERROR, "save_data: failed to save inventory data to %r: %s")
     (log (after main (initial fs wr))) /\
  stdout (after main (initial fs wr))
    = [PValue "Apple stock:" (VInt 7);
       PValue "Low items:" (VList [VStr "banana"]);
       PText report_header].
Proof.
  intros Hwr Hfs. unfold outcome, after. rewrite main_before_save.
  erewrite bind_ret
    by (unfold default_file, save_data; unfold_stmt; simpl;
        rewrite Hwr; reflexivity).
  erewrite bind_ret
    by (unfold default_file; rewrite load_data_unfolds; simpl;
        rewrite Hfs; reflexivity).
  unfold print_data.
  do 3 (erewrite bind_ret by (simpl; reflexivity)).
  simpl. repeat split. right; right; right; right; right. now left.
Qed.

Lemma main_with_failed_save_witness :
  none_writable "inventory.json" = Refused OSError /\
  no_files "inventory.json" = None /\
  outcome main (initial no_files none_writable) = Ret tt /\
  stock_data (after main (initial no_files none_writable)) = [].
Proof.
  split; [reflexivity|]. split; [reflexivity|].
  destruct (main_with_failed_save no_files none_writable eq_refl eq_refl)
    as [Hout [Hstock _]].
  split; [exact Hout | exact Hstock].
Defined.

(** ** No exception on an inventory of integers *)



(** ** When [add_item] raises *)


